(** * Multi-purpose chatbot: intent classifier, context manager, training data

    A shallow embedding of the Python modules

    - [backend/app.py]                       ([SimpleTextPreprocessor])
    - [backend/models/context_manager.py]    ([ContextManager])
    - [backend/models/intent_classifier.py]  ([IntentClassifier])
    - [backend/chatbot_core.py]              ([TrainingDataManager])

    Python [str] values are modelled as [string] over ASCII text; the
    character classes [\w] and [\s] and the methods [lower], [strip],
    [split], [find] and [in] are written out for that alphabet.
    Floating point scores are modelled as exact rationals [Q].
    Timestamps ([datetime.now()]) are modelled as integers in one fixed unit,
    the session timeout being given in the same unit. *)

From Stdlib Require Import String Ascii List Bool Arith ZArith QArith Lia Lqa.
Import ListNotations.
Local Open Scope string_scope.
Local Open Scope nat_scope.
Local Open Scope list_scope.

(* ------------------------------------------------------------------ *)
(** ** Python string primitives over ASCII *)
Module PyStr.

(** [str.isspace] on ASCII: \t \n \x0b \x0c \r, \x1c..\x1f and space. *)
Definition is_space (c : ascii) : bool :=
  let n := nat_of_ascii c in
  ((9 <=? n) && (n <=? 13)) || ((28 <=? n) && (n <=? 32)).

Definition is_alnum (c : ascii) : bool :=
  let n := nat_of_ascii c in
  ((48 <=? n) && (n <=? 57)) || ((65 <=? n) && (n <=? 90))
  || ((97 <=? n) && (n <=? 122)).

(** The regex class [\w]: letters, digits and the underscore. *)
Definition is_word (c : ascii) : bool :=
  is_alnum c || Ascii.eqb c "_"%char.

(** [str.lower] on ASCII. *)
Definition lower_char (c : ascii) : ascii :=
  let n := nat_of_ascii c in
  if (65 <=? n) && (n <=? 90) then ascii_of_nat (n + 32) else c.

Fixpoint lower (s : string) : string :=
  match s with
  | EmptyString => EmptyString
  | String c s' => String (lower_char c) (lower s')
  end.

Fixpoint filter_chars (p : ascii -> bool) (s : string) : string :=
  match s with
  | EmptyString => EmptyString
  | String c s' => if p c then String c (filter_chars p s') else filter_chars p s'
  end.

(** Maximal runs of characters satisfying [keep]; [cur] is the run read
    so far.  [str.split()] is [runs (negb o is_space)]. *)
Fixpoint runs_go (keep : ascii -> bool) (s cur : string) : list string :=
  match s with
  | EmptyString =>
      match cur with EmptyString => [] | _ => [cur] end
  | String c s' =>
      if keep c then runs_go keep s' (String.append cur (String c EmptyString))
      else match cur with
           | EmptyString => runs_go keep s' EmptyString
           | _ => cur :: runs_go keep s' EmptyString
           end
  end.

Definition split (s : string) : list string :=
  runs_go (fun c => negb (is_space c)) s EmptyString.

(** [str.lstrip()] and [str.strip()]. *)
Fixpoint lstrip (s : string) : string :=
  match s with
  | String c s' => if is_space c then lstrip s' else s
  | EmptyString => EmptyString
  end.

Fixpoint rev_str (s : string) (acc : string) : string :=
  match s with
  | EmptyString => acc
  | String c s' => rev_str s' (String c acc)
  end.

Definition strip (s : string) : string :=
  rev_str (lstrip (rev_str (lstrip s) EmptyString)) EmptyString.

(** [s.find(p)] from position [i] on: the lowest index of [p] in [s]. *)
Fixpoint find_from (p s : string) (i : nat) : option nat :=
  if String.prefix p s then Some i
  else match s with
       | EmptyString => None
       | String _ s' => find_from p s' (S i)
       end.

Definition find (p s : string) : option nat := find_from p s 0.

(** [p in s] *)
Definition contains (p s : string) : bool :=
  match find p s with Some _ => true | None => false end.

(** The slice [s[n:]]. *)
Fixpoint drop (n : nat) (s : string) : string :=
  match n, s with
  | 0, _ => s
  | S n', String _ s' => drop n' s'
  | S _, EmptyString => EmptyString
  end.

(** [any(w in s for w in ws)] *)
Definition any_in (ws : list string) (s : string) : bool :=
  existsb (fun w => contains w s) ws.

End PyStr.

(* ------------------------------------------------------------------ *)
(** ** [SimpleTextPreprocessor.preprocess_text] (backend/app.py) *)
Module Preprocess.
Import PyStr.

Definition lemmatization_map : list (string * string) :=
  [("are", "be"); ("am", "be"); ("is", "be"); ("was", "be"); ("were", "be");
   ("running", "run"); ("ran", "run"); ("runs", "run");
   ("going", "go"); ("went", "go"); ("goes", "go");
   ("having", "have"); ("had", "have"); ("has", "have");
   ("doing", "do"); ("did", "do"); ("does", "do");
   ("saying", "say"); ("said", "say"); ("says", "say");
   ("orders", "order"); ("ordered", "order");
   ("returns", "return"); ("returned", "return");
   ("problems", "problem"); ("issues", "issue")].

(** [dict.get(word, word)] *)
Fixpoint map_get (m : list (string * string)) (k d : string) : string :=
  match m with
  | [] => d
  | (k', v) :: m' => if String.eqb k k' then v else map_get m' k d
  end.

Definition preprocess_text (text : string) : string :=
  match text with
  | EmptyString => EmptyString
  | _ =>
      let text := lower text in
      (* re.sub(r'[^\w\s]', '', text) *)
      let text := filter_chars (fun c => is_word c || is_space c) text in
      let words := split text in
      let processed_words := map (fun w => map_get lemmatization_map w w) words in
      String.concat " " processed_words
  end.

(** Python's [string.punctuation]. *)
Definition punctuation : string :=
  String (ascii_of_nat 33) (String (ascii_of_nat 34)
    "#$%&'()*+,-./:;<=>?@[\]^_`{|}~").

Definition is_punct (c : ascii) : bool :=
  contains (String c EmptyString) punctuation.

(** Text made only of punctuation and whitespace characters. *)
Fixpoint only_punct_ws (s : string) : bool :=
  match s with
  | EmptyString => true
  | String c s' => (is_punct c || is_space c) && only_punct_ws s'
  end.

End Preprocess.

(* ------------------------------------------------------------------ *)
(** ** [ContextManager] (backend/models/context_manager.py) *)
Module Ctx.
Import PyStr.

(** One entry of [conversation_history]. *)
Record Turn := mkTurn {
  timestamp : Z;
  user_input : string;
  bot_response : string;
  intent : string;
  t_application : string
}.

(** The per-user context dictionary.  Its [context_variables] dictionary
    only ever receives the three keys written by
    [_update_context_variables]; each is an option field (absent = None). *)
Record Context := mkContext {
  user_id : string;
  conversation_history : list Turn;
  current_application : string;
  user_name : option string;
  user_preferences : list (string * string);
  session_start : Z;
  last_activity : Z;
  message_count : nat;
  cv_has_issues : option bool;
  cv_discussing_orders : option bool;
  cv_last_sentiment : option string
}.

Record Manager := mkManager {
  max_context_length : nat;
  session_timeout : Z;
  user_contexts : list (string * Context)
}.

(** [deque(xs, maxlen=n)]: keeps the [n] rightmost items. *)
Definition deque_of (n : nat) (xs : list Turn) : list Turn :=
  skipn (length xs - n) xs.

(** [d.append(x)] on a [deque] with [maxlen=n]: the leftmost item is
    dropped when the deque is full. *)
Definition deque_append (n : nat) (d : list Turn) (x : Turn) : list Turn :=
  deque_of n (d ++ [x]).

(** Dictionary operations on [user_contexts]. *)
Fixpoint lookup (u : string) (m : list (string * Context)) : option Context :=
  match m with
  | [] => None
  | (u', c) :: m' => if String.eqb u u' then Some c else lookup u m'
  end.

(** [d[u] = c]: replaces in place, or appends a new key at the end. *)
Fixpoint assign (u : string) (c : Context) (m : list (string * Context))
  : list (string * Context) :=
  match m with
  | [] => [(u, c)]
  | (u', c') :: m' =>
      if String.eqb u u' then (u', c) :: m' else (u', c') :: assign u c m'
  end.

Definition set_history (c : Context) (h : list Turn) : Context :=
  mkContext (user_id c) h (current_application c) (user_name c)
    (user_preferences c) (session_start c) (last_activity c) (message_count c)
    (cv_has_issues c) (cv_discussing_orders c) (cv_last_sentiment c).

Definition set_last_activity (c : Context) (t : Z) : Context :=
  mkContext (user_id c) (conversation_history c) (current_application c)
    (user_name c) (user_preferences c) (session_start c) t (message_count c)
    (cv_has_issues c) (cv_discussing_orders c) (cv_last_sentiment c).

Definition set_user_name (c : Context) (n : string) : Context :=
  mkContext (user_id c) (conversation_history c) (current_application c)
    (Some n) (user_preferences c) (session_start c) (last_activity c)
    (message_count c) (cv_has_issues c) (cv_discussing_orders c)
    (cv_last_sentiment c).

Definition set_vars (c : Context) (hi dor : option bool) (se : option string)
  : Context :=
  mkContext (user_id c) (conversation_history c) (current_application c)
    (user_name c) (user_preferences c) (session_start c) (last_activity c)
    (message_count c) hi dor se.

(** [_create_new_context] at time [now]. *)
Definition create_new_context (user : string) (now : Z) : Context :=
  mkContext user [] "customer_support" None [] now now 0 None None None.

(** [_cleanup_expired_sessions]: drops every context whose age is strictly
    greater than [session_timeout]. *)
Definition cleanup_expired_sessions (m : Manager) (now : Z) : Manager :=
  mkManager (max_context_length m) (session_timeout m)
    (filter (fun '(_, c) => negb (Z.ltb (session_timeout m) (now - last_activity c)))
       (user_contexts m)).

(** [get_context]: returns the context and the updated manager. *)
Definition get_context (m : Manager) (user : string) (now : Z) : Context * Manager :=
  let m := cleanup_expired_sessions m now in
  let c := match lookup user (user_contexts m) with
           | None => create_new_context user now
           | Some c => set_last_activity c now
           end in
  (c, mkManager (max_context_length m) (session_timeout m)
        (assign user c (user_contexts m))).

Definition name_patterns : list string :=
  ["my name is"; "i'm called"; "i am"; "call me"; "you can call me"].

(** [_extract_user_name] *)
Fixpoint extract_loop (pats : list string) (c : Context) (input low : string)
  : Context :=
  match pats with
  | [] => c
  | pattern :: pats' =>
      if contains pattern low then
        let name_start := match find pattern low with
                          | Some i => i | None => 0 end + String.length pattern in
        let potential_name := strip (drop name_start input) in
        match split potential_name with
        | name :: _ => if 1 <? String.length name then set_user_name c name else c
        | [] => c
        end
      else extract_loop pats' c input low
  end.

Definition extract_user_name (c : Context) (user_input : string) : Context :=
  extract_loop name_patterns c user_input (lower user_input).

Definition issue_words : list string := ["problem"; "issue"; "error"; "not working"].
Definition positive_words : list string :=
  ["great"; "good"; "excellent"; "thanks"; "thank you"; "awesome"].
Definition negative_words : list string :=
  ["bad"; "terrible"; "awful"; "horrible"; "disappointed"].

(** [_update_context_variables]: the positive loop runs first, then the
    negative loop, each writing [last_sentiment] on its first hit. *)
Definition update_context_variables (c : Context) (user_input : string)
  (intent : string) : Context :=
  let low := lower user_input in
  let hi := if any_in issue_words low then Some true else cv_has_issues c in
  let dor := if contains "order" low then Some true else cv_discussing_orders c in
  let se := if any_in positive_words low then Some "positive" else cv_last_sentiment c in
  let se := if any_in negative_words low then Some "negative" else se in
  set_vars c hi dor se.

(** [update_context] at time [now]. *)
Definition update_context (m : Manager) (user user_input bot_response intent
  application : string) (now : Z) : Manager :=
  let '(c, m1) := get_context m user now in
  let c := set_history c (deque_append (max_context_length m1)
             (conversation_history c)
             (mkTurn now user_input bot_response intent application)) in
  let c := mkContext (user_id c) (conversation_history c) application
             (user_name c) (user_preferences c) (session_start c)
             (last_activity c) (S (message_count c)) (cv_has_issues c)
             (cv_discussing_orders c) (cv_last_sentiment c) in
  let c := extract_user_name c user_input in
  let c := update_context_variables c user_input intent in
  mkManager (max_context_length m1) (session_timeout m1)
    (assign user c (user_contexts m1)).

(** One [update_context] call: user, input, response, intent, application
    and the time of the call. *)
Record Call := mkCall {
  call_user : string; call_input : string; call_response : string;
  call_intent : string; call_application : string; call_time : Z
}.

Fixpoint run (m : Manager) (calls : list Call) : Manager :=
  match calls with
  | [] => m
  | k :: ks =>
      run (update_context m (call_user k) (call_input k) (call_response k)
             (call_intent k) (call_application k) (call_time k)) ks
  end.

(** One entry of [get_all_active_sessions]. *)
Record SessionInfo := mkSessionInfo {
  si_user_id : string;
  si_user_name : option string;
  si_current_application : string;
  si_message_count : nat;
  si_session_duration : Z;
  si_last_activity : Z
}.

Definition get_all_active_sessions (m : Manager) (now : Z)
  : list SessionInfo * Manager :=
  let m := cleanup_expired_sessions m now in
  (map (fun '(u, c) => mkSessionInfo u (user_name c) (current_application c)
          (message_count c) (now - session_start c) (last_activity c))
       (user_contexts m), m).

(** Every stored history is within the capacity. *)
Definition history_bounded (m : Manager) : Prop :=
  Forall (fun uc => length (conversation_history (snd uc)) <= max_context_length m)
    (user_contexts m).

End Ctx.

(* ------------------------------------------------------------------ *)
(** ** [IntentClassifier] (backend/models/intent_classifier.py) *)
Module Classifier.
Import PyStr.
Local Open Scope Q_scope.

(** One application of the training data: [app_data.get("patterns", [])]
    and friends. *)
Record AppData := mkAppData {
  patterns : list string;
  responses : list string;
  tags : list string
}.

(** [training_data.get("applications", {})], in dictionary order. *)
Definition Corpus := list (string * AppData).

(** Classifier state: [trained], [patterns] and [tags] (a list of
    [{"application": .., "tag": ..}] records, here pairs). *)
Record State := mkState {
  min_confidence : Q;
  trained : bool;
  st_patterns : list string;
  st_tags : list (string * string)
}.

Definition init_state (min_conf : Q) : State := mkState min_conf false [] [].

(** The extraction loop of [train]: applications whose pattern and tag
    counts differ are skipped. *)
Fixpoint collect (apps : Corpus) : list string * list (string * string) :=
  match apps with
  | [] => ([], [])
  | (app_name, ad) :: apps' =>
      let '(ps, ts) := collect apps' in
      if Nat.eqb (length (patterns ad)) (length (tags ad))
      then (patterns ad ++ ps, map (fun t => (app_name, t)) (tags ad) ++ ts)
      else (ps, ts)
  end.

(** The analyzer of [TfidfVectorizer(analyzer='word', stop_words='english',
    lowercase=True, ngram_range=(1, 2))]: the default token pattern
    [(?u)\b\w\w+\b] yields the maximal runs of word characters of length at
    least two; stop words are removed before the bigrams are formed. *)
Section Vectorizer.
Variable is_stop : string -> bool.

Definition tokens (doc : string) : list string :=
  filter (fun w => Nat.leb 2 (String.length w)) (runs_go is_word (lower doc) EmptyString).

Fixpoint bigrams (ws : list string) : list string :=
  match ws with
  | w1 :: ((w2 :: _) as ws') => String.append w1 (String.append " " w2) :: bigrams ws'
  | _ => []
  end.

Definition analyze (doc : string) : list string :=
  let ws := filter (fun w => negb (is_stop w)) (tokens doc) in ws ++ bigrams ws.

(** [fit_transform] raises [ValueError] ("empty vocabulary") exactly when no
    document yields a term. *)
Definition fit_ok (docs : list string) : bool :=
  match flat_map analyze docs with [] => false | _ => true end.

End Vectorizer.

Section Model.
(** The stop-word list of the vectorizer, and the row
    [cosine_similarity(vectorizer.transform([text]), X)] for the matrix [X]
    fitted on the given patterns.  Both come from scikit-learn and are kept
    abstract. *)
Variable is_stop : string -> bool.
Variable cosine_row : list string -> string -> list Q.

(** [train]: returns the success flag and the new state. *)
Definition train (st : State) (training_data : Corpus) : bool * State :=
  let '(all_patterns, all_tags) := collect training_data in
  match all_patterns with
  | [] => (false, st)
  | _ =>
      if fit_ok is_stop all_patterns
      then (true, mkState (min_confidence st) true all_patterns all_tags)
      else (false, mkState (min_confidence st) false all_patterns all_tags)
  end.

(** [np.argmax]: the first index of a maximal element. *)
Fixpoint argmax_go (l : list Q) (i best : nat) (bv : Q) : nat :=
  match l with
  | [] => best
  | x :: l' =>
      if Qle_bool x bv then argmax_go l' (S i) best bv
      else argmax_go l' (S i) i x
  end.

Definition argmax (l : list Q) : nat :=
  match l with
  | [] => 0%nat
  | x :: l' => argmax_go l' 1 0 x
  end.

(** [list(history)[-3:]] *)
Definition last3 {A} (l : list A) : list A := skipn (length l - 3) l.

(** [_apply_context_scoring]; [context] is [None] when the context is
    [None], empty or has no [conversation_history]. *)
Definition apply_context_scoring (confidence : Q) (tag_info : string * string)
  (application : string) (context : option Ctx.Context) : Q :=
  let adjusted_confidence := confidence in
  let adjusted_confidence :=
    if String.eqb (fst tag_info) application then
      let a := adjusted_confidence * (11 # 10) in
      (* min(a, 1.0) *)
      if negb (Qle_bool a 1) then 1 else a
    else adjusted_confidence in
  match context with
  | Some ctx =>
      match Ctx.conversation_history ctx with
      | [] => adjusted_confidence
      | history =>
          let recent_intents := map Ctx.intent (last3 history) in
          if existsb (String.eqb (snd tag_info)) recent_intents
          then adjusted_confidence * (21 # 20)
          else adjusted_confidence
      end
  | None => adjusted_confidence
  end.

(** [predict]; an [IndexError] or an empty similarity row is caught and
    answered with [("unknown", 0.0)]. *)
Definition predict (st : State) (text application : string)
  (context : option Ctx.Context) : string * Q :=
  if negb (trained st) then ("unknown", 0)
  else
    match cosine_row (st_patterns st) text with
    | [] => ("unknown", 0)
    | similarities =>
        let best_match_idx := argmax similarities in
        let confidence := nth best_match_idx similarities 0 in
        if Qle_bool (min_confidence st) confidence then
          match nth_error (st_tags st) best_match_idx with
          | Some best_tag_info =>
              (snd best_tag_info,
               apply_context_scoring confidence best_tag_info application context)
          | None => ("unknown", 0)
          end
        else ("unknown", confidence)
    end.

(** A sequence of [train] calls. *)
Fixpoint train_all (st : State) (cs : list Corpus) : State :=
  match cs with
  | [] => st
  | c :: cs' => train_all (snd (train st c)) cs'
  end.

(** The last corpus of the sequence on which [train] returned [True]. *)
Fixpoint last_ok (st : State) (cs : list Corpus) (acc : option Corpus)
  : option Corpus :=
  match cs with
  | [] => acc
  | c :: cs' =>
      let '(ok, st') := train st c in
      last_ok st' cs' (if ok then Some c else acc)
  end.

End Model.

(** Boost conditions of [_apply_context_scoring]. *)
Definition app_boost (tag_info : string * string) (application : string) : bool :=
  String.eqb (fst tag_info) application.

Definition recent_boost (tag_info : string * string) (context : option Ctx.Context)
  : bool :=
  match context with
  | Some ctx =>
      existsb (String.eqb (snd tag_info))
        (map Ctx.intent (last3 (Ctx.conversation_history ctx)))
  | None => false
  end.

(** All tags supplied in a corpus. *)
Definition corpus_tags (c : Corpus) : list string :=
  flat_map (fun '(_, ad) => tags ad) c.

(** The patterns and tagged records [train] keeps: those of the
    applications whose pattern and tag counts agree, in dictionary order. *)
Definition loaded_patterns (c : Corpus) : list string :=
  flat_map (fun '(_, ad) =>
    if Nat.eqb (length (patterns ad)) (length (tags ad)) then patterns ad else []) c.

Definition loaded_tags (c : Corpus) : list (string * string) :=
  flat_map (fun '(a, ad) =>
    if Nat.eqb (length (patterns ad)) (length (tags ad))
    then map (fun t => (a, t)) (tags ad) else []) c.

End Classifier.

(* ------------------------------------------------------------------ *)
(** ** [TrainingDataManager] (backend/chatbot_core.py) *)
Module TrainingData.
Import Classifier.

(** [self.data]: [None] when it has no ["applications"] key (for
    instance before [load_data]). *)
Definition Data := option Corpus.

Fixpoint app_lookup (a : string) (apps : Corpus) : option AppData :=
  match apps with
  | [] => None
  | (a', ad) :: apps' => if String.eqb a a' then Some ad else app_lookup a apps'
  end.

Fixpoint app_assign (a : string) (ad : AppData) (apps : Corpus) : Corpus :=
  match apps with
  | [] => [(a, ad)]
  | (a', ad') :: apps' =>
      if String.eqb a a' then (a', ad) :: apps' else (a', ad') :: app_assign a ad apps'
  end.

(** [add_example]; [save_ok] is the outcome of [save_data()] (whether the
    file was written).  Returns the result and the new [self.data]. *)
Definition add_example (save_ok : bool) (data : Data)
  (application pattern response tag : string) : bool * Data :=
  match data with
  | None => (false, data)   (* KeyError on self.data["applications"] *)
  | Some apps =>
      let ad := match app_lookup application apps with
                | Some ad => ad
                | None => mkAppData [] [] []
                end in
      let ad := mkAppData (patterns ad ++ [pattern]) (responses ad ++ [response])
                  (tags ad ++ [tag]) in
      (save_ok, Some (app_assign application ad apps))
  end.

End TrainingData.

(* ------------------------------------------------------------------ *)
(** ** The remaining [ContextManager] methods *)
Module CtxOps.
Import PyStr Ctx.

(** [get_conversation_history(user_id, limit)]; [None] is [limit=None].
    [history[-limit:]] is taken only when [limit] is truthy and positive. *)
Definition get_conversation_history (m : Manager) (user : string) (limit : option Z)
  (now : Z) : list Turn * Manager :=
  let '(c, m1) := get_context m user now in
  let history := conversation_history c in
  match limit with
  | Some l =>
      if Z.ltb 0 l then (skipn (length history - Z.to_nat l) history, m1)
      else (history, m1)
  | None => (history, m1)
  end.

(** [user_preferences] as a dictionary. *)
Fixpoint kv_get (k : string) (l : list (string * string)) : option string :=
  match l with
  | [] => None
  | (k', v) :: l' => if String.eqb k k' then Some v else kv_get k l'
  end.

Fixpoint kv_set (k v : string) (l : list (string * string)) : list (string * string) :=
  match l with
  | [] => [(k, v)]
  | (k', v') :: l' => if String.eqb k k' then (k', v) :: l' else (k', v') :: kv_set k v l'
  end.

Definition set_preferences (c : Context) (p : list (string * string)) : Context :=
  mkContext (user_id c) (conversation_history c) (current_application c)
    (user_name c) p (session_start c) (last_activity c) (message_count c)
    (cv_has_issues c) (cv_discussing_orders c) (cv_last_sentiment c).

(** [get_user_preference(user_id, key, default)] *)
Definition get_user_preference (m : Manager) (user key default : string) (now : Z)
  : string * Manager :=
  let '(c, m1) := get_context m user now in
  (match kv_get key (user_preferences c) with Some v => v | None => default end, m1).

(** [set_user_preference(user_id, key, value)] *)
Definition set_user_preference (m : Manager) (user key value : string) (now : Z)
  : Manager :=
  let '(c, m1) := get_context m user now in
  mkManager (max_context_length m1) (session_timeout m1)
    (assign user (set_preferences c (kv_set key value (user_preferences c)))
       (user_contexts m1)).

(** The dictionary returned by [get_context_summary]. *)
Record Summary := mkSummary {
  s_user_id : string;
  s_user_name : option string;
  s_current_application : string;
  s_message_count : nat;
  s_session_duration : Z;
  s_recent_intents : list string;
  s_has_issues : bool;
  s_last_sentiment : string
}.

Definition get_context_summary (m : Manager) (user : string) (now : Z)
  : Summary * Manager :=
  let '(c, m1) := get_context m user now in
  (mkSummary (user_id c) (user_name c) (current_application c) (message_count c)
     (now - session_start c)
     (map intent (Classifier.last3 (conversation_history c)))
     (match cv_has_issues c with Some b => b | None => false end)
     (match cv_last_sentiment c with Some s => s | None => "neutral" end), m1).

(** [del d[u]] *)
Definition remove_key (u : string) (l : list (string * Context)) : list (string * Context) :=
  filter (fun '(u', _) => negb (String.eqb u u')) l.

(** [clear_context] *)
Definition clear_context (m : Manager) (user : string) : bool * Manager :=
  match lookup user (user_contexts m) with
  | Some _ => (true, mkManager (max_context_length m) (session_timeout m)
                       (remove_key user (user_contexts m)))
  | None => (false, m)
  end.

(** [export_context]: a copy of the context, its history as a list. *)
Definition export_context (m : Manager) (user : string) : option Context :=
  lookup user (user_contexts m).

(** [import_context]: the history is rebuilt as a [deque] bounded by
    [max_context_length] and the context stored; always [True]. *)
Definition import_context (m : Manager) (user : string) (context_data : Context)
  : bool * Manager :=
  let c := set_history context_data
             (deque_of (max_context_length m) (conversation_history context_data)) in
  (true, mkManager (max_context_length m) (session_timeout m)
           (assign user c (user_contexts m))).

End CtxOps.

(* ------------------------------------------------------------------ *)
(** ** The remaining [TrainingDataManager] methods *)
Module TrainingDataOps.
Import Classifier TrainingData.

(** [_create_default_data] *)
Definition default_data : Corpus :=
  [("customer_support", mkAppData
      ["hello"; "hi"; "hey"; "good morning"; "good afternoon";
       "i need help with my order"; "order status"; "track my package";
       "return policy"; "refund request"; "cancel order";
       "product not working"; "broken item"; "defective product";
       "shipping delay"; "when will my order arrive"; "delivery time";
       "payment issue"; "billing problem"; "charge dispute"]
      ["Hello! I'm here to help with your customer service needs.";
       "I can check your order status. Please provide your order number.";
       "Our return policy allows returns within 30 days of purchase.";
       "I'm sorry to hear you're having issues. Let me help you with that.";
       "For shipping delays, I can check the current status for you.";
       "I can help with payment issues. What seems to be the problem?"]
      ["greeting"; "greeting"; "greeting"; "greeting"; "greeting";
       "order_help"; "order_status"; "order_status";
       "return_policy"; "refund"; "cancel_order";
       "product_issue"; "product_issue"; "product_issue";
       "shipping"; "shipping"; "shipping";
       "payment"; "payment"; "payment"]);
   ("college_helpdesk", mkAppData
      ["admission requirements"; "how to apply"; "application deadline";
       "tuition fees"; "scholarships"; "financial aid";
       "course registration"; "class schedule"; "prerequisites";
       "campus facilities"; "library hours"; "computer lab"]
      ["Admission requirements include a completed application and transcripts.";
       "The application deadline for fall semester is August 1st.";
       "Tuition fees vary by program. I can check specific costs for you.";
       "We offer various scholarships based on academic performance.";
       "Course registration opens two weeks before each semester.";
       "The library is open from 8 AM to 10 PM on weekdays."]
      ["admissions"; "admissions"; "admissions";
       "fees"; "financial"; "financial";
       "registration"; "schedule"; "courses";
       "facilities"; "facilities"; "facilities"]);
   ("hr_recruitment", mkAppData
      ["job openings"; "current vacancies"; "career opportunities";
       "application process"; "how to apply"; "submit resume";
       "interview process"; "hiring stages"; "technical interview";
       "salary range"; "compensation"; "benefits package"]
      ["We have openings in engineering, marketing, and sales departments.";
       "You can apply through our careers portal with your resume.";
       "Our interview process typically includes 3-4 stages.";
       "Salary ranges are competitive and based on experience.";
       "We offer comprehensive health benefits and retirement plans."]
      ["openings"; "openings"; "openings";
       "application"; "application"; "application";
       "interview"; "interview"; "interview";
       "compensation"; "compensation"; "benefits"]);
   ("personal_assistant", mkAppData
      ["what's the time"; "current time"; "time please";
       "weather today"; "weather forecast"; "will it rain";
       "set reminder"; "remind me to"; "schedule meeting";
       "tell me a joke"; "make me laugh"; "something funny"]
      ["I can check the time for you. One moment...";
       "For weather information, I recommend checking a weather app.";
       "I can help you set reminders. What should I remind you about?";
       "Why don't scientists trust atoms? Because they make up everything!";
       "Here's a joke: Why did the scarecrow win an award? He was outstanding in his field!"]
      ["time"; "time"; "time";
       "weather"; "weather"; "weather";
       "reminder"; "reminder"; "schedule";
       "joke"; "joke"; "joke"])].

(** The data file as [load_data] finds it: absent, present and parsed by
    [json.load] (to a value whose ["applications"] entry may be missing),
    or present but unreadable ([json.load] raises). *)
Inductive DataFile := NoFile | FileParsed (d : Data) | FileCorrupt.

(** [load_data]: the returned data and the new [self.data].  When the
    file is absent the default data is stored and saved; the outcome of
    [save_data()] is not used.  When loading raises, the default data is
    returned but [self.data] is left as it was. *)
Definition load_data (file : DataFile) (data : Data) : Data * Data :=
  match file with
  | FileParsed d => (d, d)
  | NoFile => (Some default_data, Some default_data)
  | FileCorrupt => (Some default_data, data)
  end.

(** [get_all_applications]; [None] is the [KeyError] of a data without
    ["applications"]. *)
Definition get_all_applications (data : Data) : option (list string) :=
  match data with Some apps => Some (map fst apps) | None => None end.

(** [get_stats]: totals of applications, patterns and responses, and the
    per-application (patterns, responses, tags) counts. *)
Record Stats := mkStats {
  total_applications : nat;
  total_patterns : nat;
  total_responses : nat;
  application_stats : list (string * (nat * nat * nat))
}.

Definition get_stats (data : Data) : option Stats :=
  match data with
  | None => None
  | Some apps =>
      Some (mkStats (length apps)
              (fold_left (fun acc '(_, ad) => acc + length (patterns ad)) apps 0)
              (fold_left (fun acc '(_, ad) => acc + length (responses ad)) apps 0)
              (map (fun '(a, ad) => (a, (length (patterns ad), length (responses ad),
                                         length (tags ad)))) apps))
  end.

End TrainingDataOps.

(* ------------------------------------------------------------------ *)
(** ** [SimpleChatbot.get_response] (backend/app.py) *)
Module SimpleBot.
Import PyStr Preprocess.
Local Open Scope Q_scope.

(** One entry of a user's ["conversation_history"]. *)
Record BotTurn := mkBotTurn {
  bt_user : string;
  bt_bot : string;
  bt_timestamp : Z;
  bt_application : string
}.

(** A value of [self.conversation_context]. *)
Record BotCtx := mkBotCtx {
  b_history : list BotTurn;
  b_current_application : string;
  b_user_name : option string
}.

Definition BotState := list (string * BotCtx).

(** The dictionary returned by [get_response]. *)
Record Reply := mkReply {
  response : string;
  confidence : Q;
  r_application : string;
  context_used : bool
}.

Fixpoint get {A} (k : string) (l : list (string * A)) : option A :=
  match l with
  | [] => None
  | (k', v) :: l' => if String.eqb k k' then Some v else get k l'
  end.

Fixpoint put {A} (k : string) (v : A) (l : list (string * A)) : list (string * A) :=
  match l with
  | [] => [(k, v)]
  | (k', v') :: l' => if String.eqb k k' then (k', v) :: l' else (k', v') :: put k v l'
  end.

(** [self.pattern_responses]: per application, the keyword groups with
    their responses. *)
Definition Table := list (string * list (list string * list string)).

(** [_load_pattern_responses]; [hm] and [imp] are the times
    [strftime('%H:%M')] and [strftime('%I:%M %p')] read when the table is
    built. *)
Definition pattern_responses (hm imp : string) : Table :=
  [("customer_support",
     [(["hello"; "hi"; "hey"], ["Hello! How can I help with customer support today?"; "Hi there! What can I assist you with today?"]);
      (["order"; "status"; "track"; "package"], ["I can help you track your order. Do you have an order number?"; "For order status, I'll need your order number."]);
      (["return"; "refund"; "cancel"], ["Our return policy allows returns within 30 days. Can you tell me more about your situation?"; "I can help with returns and refunds. What would you like to return?"]);
      (["problem"; "issue"; "broken"; "not working"; "defective"], ["I'm sorry you're having issues. Let me help you troubleshoot the problem."; "I can help with technical issues. What seems to be the problem?"]);
      (["shipping"; "delivery"; "when"; "arrive"], ["I can check shipping status for you. What's your order number?"; "For delivery information, I'll need your order details."]);
      (["payment"; "billing"; "charge"; "credit card"], ["I can help with payment issues. What seems to be the problem?"; "For billing questions, I'll need more information about the charge."])]);
   ("college_helpdesk",
     [(["admission"; "apply"; "application"; "requirements"], ["Admission requirements include a completed application and transcripts."; "The application deadline for fall semester is August 1st."]);
      (["tuition"; "fees"; "scholarship"; "financial"; "aid"], ["Tuition fees vary by program. I can check specific costs for you."; "We offer various scholarships based on academic performance."]);
      (["course"; "register"; "class"; "schedule"], ["Course registration opens two weeks before each semester."; "You can check the class schedule on our student portal."]);
      (["campus"; "library"; "facility"; "hours"], ["The library is open from 8 AM to 10 PM on weekdays."; "Most campus facilities are open from 7 AM to 10 PM."])]);
   ("hr_recruitment",
     [(["job"; "opening"; "vacancy"; "career"; "position"], ["We have openings in engineering, marketing, and sales departments."; "You can view all current openings on our careers page."]);
      (["apply"; "application"; "resume"; "cv"], ["You can apply through our careers portal with your resume."; "The application process typically takes 2-3 weeks."]);
      (["interview"; "process"; "hiring"; "stage"], ["Our interview process typically includes 3-4 stages."; "The hiring process includes resume screening and multiple interviews."]);
      (["salary"; "compensation"; "benefit"; "pay"], ["Salary ranges are competitive and based on experience."; "We offer comprehensive health benefits and retirement plans."])]);
   ("personal_assistant",
     [(["time"; "current"; "clock"], [String.append "The current time is " (String.append hm "."); String.append "It's currently " (String.append imp ".")]);
      (["weather"; "forecast"; "rain"; "temperature"], ["I recommend checking a weather app for current conditions."; "For accurate weather information, try a dedicated weather service."]);
      (["remind"; "reminder"; "schedule"; "meeting"], ["I can help you set reminders. What should I remind you about?"; "For scheduling, you can use calendar apps like Google Calendar."]);
      (["joke"; "funny"; "laugh"; "humor"], ["Why don't scientists trust atoms? Because they make up everything!"; "Why did the scarecrow win an award? He was outstanding in his field!"])])].

(** The [fallbacks] dictionary of [get_response]. *)
Definition fallbacks : list (string * list string) :=
  [("customer_support",
     ["I'm here to help with customer support. How can I assist you today?";
      "For customer support, I can help with orders, returns, and technical issues. What do you need help with?";
      "I specialize in customer service. Tell me about your concern."]);
   ("college_helpdesk",
     ["I can help with college information, admissions, and campus services. What would you like to know?";
      "As a college helpdesk assistant, I can answer questions about admissions, courses, and campus life.";
      "How can I assist you with college-related matters today?"]);
   ("hr_recruitment",
     ["I can help with job openings, applications, and company information. What would you like to know?";
      "For HR and recruitment questions, I'm here to help. What information are you looking for?";
      "I specialize in career and employment information. How can I assist you?"]);
   ("personal_assistant",
     ["I can help with time, reminders, and general information. What do you need?";
      "As your personal assistant, I can provide information and help with various tasks.";
      "How can I assist you today?"])].

Definition apology (application : string) : Reply :=
  mkReply "I apologize, but I'm having trouble right now. Please try again." 0
    application false.

Definition please_type (application : string) : Reply :=
  mkReply "Please type a message so I can help you!" 0 application false.

(** [user_input[name_start:].strip().split()] after "my name is". *)
Definition name_tail (user_input : string) : list string :=
  let name_start := (match find "my name is" (lower user_input) with
                     | Some i => i | None => 0%nat end + 10)%nat in
  split (strip (drop name_start user_input)).

(** The history after an append: [history[-5:]] once it exceeds 5. *)
Definition keep_last5 (h : list BotTurn) : list BotTurn :=
  if (5 <? length h)%nat then skipn (length h - 5) h else h.

Section Bot.
(** [random.choice]: the index drawn for a non-empty list is
    [choice_index l mod len(l)]; an empty list raises [IndexError]. *)
Variable choice_index : list string -> nat.
(** [self.pattern_responses] *)
Variable table : Table.

Definition random_choice (l : list string) : option string :=
  match l with
  | [] => None
  | _ => nth_error l (choice_index l mod length l)
  end.

(** The matching loop: [None] when [random.choice] raises. *)
Fixpoint best_match (groups : list (list string * list string)) (processed : string)
  (best_response : option string) (best_confidence : Q) : option (option string * Q) :=
  match groups with
  | [] => Some (best_response, best_confidence)
  | (pattern_group, responses) :: gs =>
      let match_count := length (filter (fun p => contains p processed) pattern_group) in
      let confidence := match pattern_group with
                        | [] => 0
                        | _ => Z.of_nat match_count # Pos.of_nat (length pattern_group)
                        end in
      if Qle_bool confidence best_confidence
      then best_match gs processed best_response best_confidence
      else match random_choice responses with
           | None => None
           | Some r => best_match gs processed (Some r) confidence
           end
  end.

(** [not best_response]: [None] and the empty string are falsy. *)
Definition falsy (r : option string) : bool :=
  match r with Some (String _ _) => false | _ => true end.

(** [get_response] at time [now]: the reply and the new
    [self.conversation_context].  An exception inside the [try] gives the
    apology reply; the context created before it stays. *)
Definition get_response (st : BotState) (user_input user_id application : string)
  (now : Z) : Reply * BotState :=
  match user_input, strip user_input with
  | EmptyString, _ | _, EmptyString => (please_type application, st)
  | _, _ =>
  let '(ctx, st1) :=
    match get user_id st with
    | Some c => (c, st)
    | None => let c := mkBotCtx [] application None in (c, put user_id c st)
    end in
  let processed_input := preprocess_text user_input in
  let app_patterns := match get application table with Some g => g | None => [] end in
  match best_match app_patterns processed_input None 0 with
  | None => (apology application, st1)
  | Some (best_response, best_confidence) =>
  let chosen :=
    if falsy best_response || negb (Qle_bool (3 # 10) best_confidence) then
      match random_choice (match get application fallbacks with
                           | Some l => l | None => ["How can I help you today?"] end) with
      | Some r => Some (r, 1 # 10)
      | None => None
      end
    else Some (match best_response with Some r => r | None => EmptyString end,
               best_confidence) in
  match chosen with
  | None => (apology application, st1)
  | Some (best_response, best_confidence) =>
  let named :=
    if contains "my name is" (lower user_input) then
      match name_tail user_input with
      | [] => None
      | potential_name :: _ =>
          if (1 <? String.length potential_name)%nat then
            Some (mkBotCtx (b_history ctx) (b_current_application ctx) (Some potential_name),
                  String.append "Nice to meet you, "
                    (String.append potential_name (String.append "! " best_response)))
          else Some (ctx, best_response)
      end
    else
      match b_user_name ctx with
      | Some ((String _ _) as name) =>
          if any_in ["how"; "what"; "when"; "where"] processed_input
          then Some (ctx, String.append best_response
                            (String.append " By the way, " (String.append name "!")))
          else Some (ctx, best_response)
      | _ => Some (ctx, best_response)
      end in
  match named with
  | None => (apology application, st1)
  | Some (ctx, best_response) =>
      let h := keep_last5 (b_history ctx ++
                 [mkBotTurn user_input best_response now application]) in
      let ctx := mkBotCtx h (b_current_application ctx) (b_user_name ctx) in
      (mkReply best_response best_confidence application (1 <? length h)%nat,
       put user_id ctx st1)
  end
  end
  end
  end.

End Bot.

End SimpleBot.

(* ------------------------------------------------------------------ *)
(** ** Character predicates used to state properties *)
Module StrPred.

(** Every character of [s] satisfies [p]. *)
Fixpoint all_chars (p : ascii -> bool) (s : string) : bool :=
  match s with
  | EmptyString => true
  | String c s' => p c && all_chars p s'
  end.

End StrPred.

(* ------------------------------------------------------------------ *)
(** ** Concrete inputs used by the examples below *)
Module Samples.
Import Classifier.

(** A fresh context of user "u" created at time 0. *)
Definition ctx0 : Ctx.Context := Ctx.create_new_context "u" 0.

(** A context whose history holds one "greeting" turn. *)
Definition ctx_greeting : Ctx.Context :=
  Ctx.set_history ctx0 [Ctx.mkTurn 0 "hi" "Hello!" "greeting" "customer_support"].

(** A manager with the default settings (capacity 10, timeout 3600) holding
    [ctx0] for user "u". *)
Definition manager_u : Ctx.Manager := Ctx.mkManager 10 3600 [("u", ctx0)].

(** A context of user "u" whose history holds three turns. *)
Definition ctx_three : Ctx.Context :=
  Ctx.set_history ctx0
    [Ctx.mkTurn 1 "hi" "Hello!" "greeting" "customer_support";
     Ctx.mkTurn 2 "where is my order" "Let me check." "order_status" "customer_support";
     Ctx.mkTurn 3 "thanks" "You are welcome." "thanks" "customer_support"].

(** A manager of capacity 3 whose user "u" has a full history. *)
Definition manager_full : Ctx.Manager := Ctx.mkManager 3 3600 [("u", ctx_three)].

(** A bot turn of user "u" at time [t]. *)
Definition bot_turn (t : Z) : SimpleBot.BotTurn :=
  SimpleBot.mkBotTurn "hello" "Hello!" t "customer_support".

(** A bot state whose user "u" already has five turns. *)
Definition bot_full : SimpleBot.BotState :=
  [("u", SimpleBot.mkBotCtx (map bot_turn [1; 2; 3; 4; 5]%Z) "customer_support" None)].

(** The classifier right after [__init__] with the default threshold 0.3. *)
Definition fresh_classifier : State := init_state (3 # 10).

(** A one-application corpus whose only pattern, "?", holds no token. *)
Definition corpus_no_terms : Corpus :=
  [("customer_support", mkAppData ["?"] ["Sorry?"] ["unclear"])].

(** A similarity row that scores every pattern [1/10]. *)
Definition low_row (ps : list string) (_ : string) : list Q :=
  map (fun _ => 1 # 10) ps.

End Samples.

(* ================================================================== *)
(** * Properties *)

Module ScoringProofs.
Import Classifier Samples.
Local Open Scope Q_scope.

Lemma Qle_bool_false x y : Qle_bool x y = false -> y < x.
Proof.
  intro H. apply Qnot_le_lt. intro H'. apply Qle_bool_iff in H'. congruence.
Qed.

(** The in-application step of the scoring, on its own. *)
Lemma app_step_bounds (c : Q) (b : bool) :
  0 <= c <= 1 ->
  let a := if b then (if negb (Qle_bool (c * (11 # 10)) 1) then 1 else c * (11 # 10))
           else c in
  c <= a /\ a <= 1.
Proof.
  intros [H0 H1]; simpl. destruct b; [|split; lra].
  destruct (Qle_bool (c * (11 # 10)) 1) eqn:E; simpl.
  - apply Qle_bool_iff in E. split; lra.
  - split; lra.
Qed.

(** C1 (as stated), refuted: a matched pattern with raw similarity 1.0
    whose tag was among the recent intents gets confidence 1.05. *)
Lemma C1_counterexample :
  apply_context_scoring 1 ("customer_support", "greeting") "customer_support"
    (Some ctx_greeting) == 21 # 20 /\
  ~ (apply_context_scoring 1 ("customer_support", "greeting") "customer_support"
       (Some ctx_greeting) <= 1).
Proof.
  split.
  - vm_compute. reflexivity.
  - vm_compute. intro H. apply H. reflexivity.
Qed.

(** C1 (amended): for a raw score in [0,1] the adjusted confidence is at
    least the raw score when a boost applies, equal to it when none does,
    at most 1.0 when the recent-intent boost does not apply, and at most
    1.05 in every case. *)
Theorem C1_context_scoring_bounds (c : Q) (tag_info : string * string)
  (application : string) (context : option Ctx.Context) :
  0 <= c <= 1 ->
  ((app_boost tag_info application = true \/ recent_boost tag_info context = true) ->
     c <= apply_context_scoring c tag_info application context) /\
  (app_boost tag_info application = false -> recent_boost tag_info context = false ->
     apply_context_scoring c tag_info application context = c) /\
  (recent_boost tag_info context = false ->
     apply_context_scoring c tag_info application context <= 1) /\
  apply_context_scoring c tag_info application context <= 21 # 20.
Proof.
  intros Hc.
  pose proof (app_step_bounds c (String.eqb (fst tag_info) application) Hc) as [Ha1 Ha2].
  unfold apply_context_scoring, app_boost, recent_boost.
  destruct (String.eqb (fst tag_info) application) eqn:Eapp;
  destruct context as [cx|];
  try destruct (Ctx.conversation_history cx) as [|t h] eqn:Eh;
  try destruct (existsb (String.eqb (snd tag_info)) (map Ctx.intent (last3 (t :: h))))
    eqn:Er;
  simpl in *; repeat split; intros; try discriminate; try lra;
  try (destruct H; discriminate).
Qed.

Lemma C1_witness :
  0 <= 1 # 2 <= 1 /\
  let r := apply_context_scoring (1 # 2) ("customer_support", "greeting")
             "customer_support" None in
  ((app_boost ("customer_support", "greeting") "customer_support" = true \/
    recent_boost ("customer_support", "greeting") None = true) -> 1 # 2 <= r) /\
  (app_boost ("customer_support", "greeting") "customer_support" = false ->
   recent_boost ("customer_support", "greeting") None = false -> r = 1 # 2) /\
  (recent_boost ("customer_support", "greeting") None = false -> r <= 1) /\
  r <= 21 # 20.
Proof.
  assert (H : 0 <= 1 # 2 <= 1) by (split; vm_compute; discriminate).
  split; [exact H|].
  exact (C1_context_scoring_bounds (1 # 2) ("customer_support", "greeting")
           "customer_support" None H).
Defined.

(** C2: on a trained classifier, a best match strictly below the threshold
    gives the tag "unknown" with the raw best similarity as confidence. *)
Theorem C2_predict_below_threshold (cosine_row : list string -> string -> list Q)
  (st : State) (text application : string) (context : option Ctx.Context)
  (similarities : list Q) :
  trained st = true ->
  cosine_row (st_patterns st) text = similarities ->
  similarities <> [] ->
  nth (argmax similarities) similarities 0 < min_confidence st ->
  predict cosine_row st text application context
  = ("unknown", nth (argmax similarities) similarities 0).
Proof.
  intros Ht Hrow Hne Hlt. unfold predict. rewrite Ht, Hrow.
  destruct similarities as [|x xs]; [contradiction|]. cbn [negb].
  destruct (Qle_bool (min_confidence st) (nth (argmax (x :: xs)) (x :: xs) 0)) eqn:E.
  - apply Qle_bool_iff in E. exfalso. apply (Qlt_not_le _ _ Hlt E).
  - reflexivity.
Qed.

Lemma C2_witness :
  let st := mkState (3 # 10) true ["hello"] [("customer_support", "greeting")] in
  trained st = true /\
  low_row (st_patterns st) "good evening" = [1 # 10] /\
  [1 # 10] <> [] /\
  nth (argmax [1 # 10]) [1 # 10] 0 < min_confidence st /\
  predict low_row st "good evening" "customer_support" None
  = ("unknown", nth (argmax [1 # 10]) [1 # 10] 0).
Proof.
  simpl. split; [reflexivity|]. split; [reflexivity|]. split; [discriminate|].
  split; [vm_compute; reflexivity|].
  apply (C2_predict_below_threshold low_row
           (mkState (3 # 10) true ["hello"] [("customer_support", "greeting")])
           "good evening" "customer_support" None [1 # 10]).
  - reflexivity.
  - reflexivity.
  - discriminate.
  - vm_compute. reflexivity.
Defined.

End ScoringProofs.

Module CtxProofs.
Import PyStr Ctx Samples.

Lemma deque_of_length (n : nat) (xs : list Turn) : length (deque_of n xs) <= n.
Proof. unfold deque_of. rewrite length_skipn. lia. Qed.

Lemma deque_append_full (n : nat) (d : list Turn) (x : Turn) :
  length d = n -> d <> [] -> deque_append n d x = tl d ++ [x].
Proof.
  intros Hl Hne. unfold deque_append, deque_of.
  rewrite length_app; simpl.
  replace (length d + 1 - n) with 1 by lia.
  destruct d as [|y d']; [contradiction|]. reflexivity.
Qed.

Lemma extract_loop_history (pats : list string) (c : Context) (input low : string) :
  conversation_history (extract_loop pats c input low) = conversation_history c.
Proof.
  induction pats as [|p pats IH]; simpl; [reflexivity|].
  destruct (contains p low); [|exact IH].
  destruct (split _) as [|n rest]; [reflexivity|].
  destruct (1 <? String.length n); reflexivity.
Qed.

Lemma Forall_assign (P : string * Context -> Prop) (u : string) (c : Context)
  (l : list (string * Context)) :
  Forall P l -> P (u, c) -> Forall P (assign u c l).
Proof.
  induction l as [|[u' c'] l IH]; simpl; intros Hl Hc; [constructor; auto|].
  inversion Hl as [|? ? Hh Ht]; subst.
  destruct (String.eqb u u') eqn:E.
  - apply String.eqb_eq in E; subst. constructor; auto.
  - constructor; auto.
Qed.

Lemma Forall_filter_keep {A} (P : A -> Prop) (f : A -> bool) (l : list A) :
  Forall P l -> Forall P (filter f l).
Proof.
  rewrite !Forall_forall. intros H x Hx. apply filter_In in Hx. apply H; tauto.
Qed.

Lemma lookup_assign_same (u : string) (c : Context) (l : list (string * Context)) :
  lookup u (assign u c l) = Some c.
Proof.
  induction l as [|[u' c'] l IH]; simpl.
  - rewrite String.eqb_refl. reflexivity.
  - destruct (String.eqb u u') eqn:E; simpl; rewrite E; [reflexivity | exact IH].
Qed.

Lemma lookup_In (u : string) (c : Context) (l : list (string * Context)) :
  lookup u l = Some c -> In (u, c) l.
Proof.
  induction l as [|[u' c'] l IH]; simpl; [discriminate|].
  destruct (String.eqb u u') eqn:E; intros H.
  - apply String.eqb_eq in E. injection H as ->. subst. left; reflexivity.
  - right; auto.
Qed.

Lemma update_context_bounded (m : Manager) (u i r t a : string) (now : Z) :
  history_bounded m -> history_bounded (update_context m u i r t a now).
Proof.
  unfold history_bounded, update_context, get_context. simpl. intros H.
  apply Forall_filter_keep with
    (f := fun '(_, c) => negb (session_timeout m <? now - last_activity c)%Z) in H.
  apply Forall_assign.
  - apply Forall_assign; [exact H|].
    destruct (lookup u _) as [c|] eqn:E; simpl.
    + apply lookup_In in E. rewrite Forall_forall in H. exact (H _ E).
    + lia.
  - simpl. unfold extract_user_name.
    rewrite extract_loop_history. simpl. apply deque_of_length.
Qed.

Lemma run_bounded (m : Manager) (calls : list Call) :
  history_bounded m -> history_bounded (run m calls).
Proof.
  revert m; induction calls as [|k ks IH]; simpl; intros m H; [exact H|].
  apply IH, update_context_bounded, H.
Qed.

Lemma update_context_fifo (m : Manager) (u i r t a : string) (now : Z) (c : Context) :
  lookup u (user_contexts (cleanup_expired_sessions m now)) = Some c ->
  length (conversation_history c) = max_context_length m ->
  conversation_history c <> [] ->
  option_map conversation_history
    (lookup u (user_contexts (update_context m u i r t a now)))
  = Some (tl (conversation_history c) ++ [mkTurn now i r t a]).
Proof.
  intros Hl Hlen Hne. unfold update_context, get_context. rewrite Hl. simpl.
  rewrite lookup_assign_same. simpl. unfold extract_user_name.
  rewrite extract_loop_history. simpl.
  rewrite deque_append_full; [reflexivity | exact Hlen | exact Hne].
Qed.

(** C3: from any manager whose histories are within the capacity, every
    sequence of [update_context] calls keeps every history within the
    capacity; and appending a turn to a full history drops exactly its
    oldest turn. *)
Theorem C3_history_capacity_fifo (m : Manager) (calls : list Call) :
  history_bounded m ->
  history_bounded (run m calls) /\
  (forall (u i r t a : string) (now : Z) (c : Context),
     lookup u (user_contexts (cleanup_expired_sessions m now)) = Some c ->
     length (conversation_history c) = max_context_length m ->
     conversation_history c <> [] ->
     option_map conversation_history
       (lookup u (user_contexts (update_context m u i r t a now)))
     = Some (tl (conversation_history c) ++ [mkTurn now i r t a])).
Proof.
  intros H. split; [apply run_bounded, H|].
  intros. apply update_context_fifo; assumption.
Qed.

Lemma C3_witness :
  history_bounded manager_full /\
  history_bounded (run manager_full
    [mkCall "u" "hello" "Hi!" "greeting" "customer_support" 5;
     mkCall "u" "my order is late" "Sorry!" "shipping" "customer_support" 6]) /\
  option_map conversation_history
    (lookup "u" (user_contexts (update_context manager_full "u" "hello" "Hi!" "greeting"
                                  "customer_support" 5)))
  = Some (tl (conversation_history ctx_three) ++
          [mkTurn 5 "hello" "Hi!" "greeting" "customer_support"]).
Proof.
  assert (H : history_bounded manager_full).
  { unfold history_bounded. simpl. constructor; [simpl; lia | constructor]. }
  split; [exact H|]. split.
  - exact (proj1 (C3_history_capacity_fifo manager_full
                    [mkCall "u" "hello" "Hi!" "greeting" "customer_support" 5;
                     mkCall "u" "my order is late" "Sorry!" "shipping" "customer_support" 6]
                    H)).
  - refine (proj2 (C3_history_capacity_fifo manager_full [] H) "u" "hello" "Hi!" "greeting"
              "customer_support" 5%Z ctx_three _ _ _).
    + vm_compute. reflexivity.
    + reflexivity.
    + discriminate.
Defined.

(** C4 (as stated), refuted: "good but bad" holds the positive word
    "good", yet the stored last sentiment is "negative". *)
Lemma C4_counterexample :
  any_in positive_words (lower "good but bad") = true /\
  cv_last_sentiment (update_context_variables ctx0 "good but bad" "feedback")
  = Some "negative".
Proof. split; vm_compute; reflexivity. Qed.

(** C4 (amended): a turn holding a negative word stores "negative" (even
    with a positive word), one holding only a positive word stores
    "positive", and one holding neither leaves the last sentiment as it was. *)
Theorem C4_sentiment_negative_overrides (c : Context) (user_input intent : string) :
  cv_last_sentiment (update_context_variables c user_input intent) =
  if any_in negative_words (lower user_input) then Some "negative"
  else if any_in positive_words (lower user_input) then Some "positive"
  else cv_last_sentiment c.
Proof.
  unfold update_context_variables, set_vars. simpl.
  destruct (any_in negative_words (lower user_input));
  destruct (any_in positive_words (lower user_input)); reflexivity.
Qed.

(** C5: name extraction on "my name is Sam!" stores the token with its
    punctuation, "Sam!", where the claim expects "Sam". *)
Lemma C5_name_keeps_punctuation :
  user_name (extract_user_name ctx0 "my name is Sam!") = Some "Sam!".
Proof. vm_compute. reflexivity. Qed.

Lemma NoDup_key_unique (u : string) (c c' : Context) (l : list (string * Context)) :
  NoDup (map fst l) -> In (u, c) l -> In (u, c') l -> c = c'.
Proof.
  induction l as [|[u0 c0] l IH]; simpl; [tauto|].
  intros Hnd H1 H2. inversion Hnd as [|? ? Hnin Hnd']; subst.
  destruct H1 as [E1|H1]; destruct H2 as [E2|H2].
  - injection E1 as -> ->. injection E2 as ->. reflexivity.
  - injection E1 as -> ->. exfalso. apply Hnin. apply in_map_iff.
    exists (u, c'). split; [reflexivity | exact H2].
  - injection E2 as -> ->. exfalso. apply Hnin. apply in_map_iff.
    exists (u, c). split; [reflexivity | exact H1].
  - exact (IH Hnd' H1 H2).
Qed.

Lemma lookup_None (u : string) (l : list (string * Context)) :
  ~ In u (map fst l) -> lookup u l = None.
Proof.
  induction l as [|[u' c'] l IH]; simpl; intros H; [reflexivity|].
  destruct (String.eqb u u') eqn:E.
  - apply String.eqb_eq in E. subst. exfalso. apply H. left; reflexivity.
  - apply IH. intro H'. apply H. right; exact H'.
Qed.

Lemma expired_swept (m : Manager) (u : string) (c : Context) (now : Z) :
  NoDup (map fst (user_contexts m)) ->
  lookup u (user_contexts m) = Some c ->
  (session_timeout m < now - last_activity c)%Z ->
  ~ In u (map fst (user_contexts (cleanup_expired_sessions m now))).
Proof.
  intros Hnd Hl Hexp Hin. simpl in Hin.
  apply in_map_iff in Hin as [[u' c'] [Eu Hf]]. simpl in Eu. subst u'.
  apply filter_In in Hf as [Hin Hkeep].
  rewrite (NoDup_key_unique u c' c _ Hnd Hin (lookup_In _ _ _ Hl)) in Hkeep.
  apply Z.ltb_lt in Hexp. rewrite Hexp in Hkeep. discriminate.
Qed.

Lemma session_ids (now : Z) (l : list (string * Context)) :
  map si_user_id
    (map (fun '(u, c) => mkSessionInfo u (user_name c) (current_application c)
            (message_count c) (now - session_start c) (last_activity c)) l)
  = map fst l.
Proof. induction l as [|[u c] l IH]; simpl; [reflexivity | rewrite IH; reflexivity]. Qed.

(** C6: a context idle strictly longer than the session timeout is swept
    on the next access: [get_context] returns (and stores) a freshly
    created context, and [get_all_active_sessions] does not list the user. *)
Theorem C6_expired_context_replaced (m : Manager) (u : string) (c : Context) (now : Z) :
  NoDup (map fst (user_contexts m)) ->
  lookup u (user_contexts m) = Some c ->
  (session_timeout m < now - last_activity c)%Z ->
  fst (get_context m u now) = create_new_context u now /\
  lookup u (user_contexts (snd (get_context m u now))) = Some (create_new_context u now) /\
  ~ In u (map si_user_id (fst (get_all_active_sessions m now))).
Proof.
  intros Hnd Hl Hexp.
  pose proof (expired_swept m u c now Hnd Hl Hexp) as Hgone.
  pose proof (lookup_None _ _ Hgone) as Hnone.
  unfold get_context. rewrite Hnone. simpl.
  split; [reflexivity|]. split; [apply lookup_assign_same|].
  unfold get_all_active_sessions. simpl. rewrite session_ids. exact Hgone.
Qed.

Lemma C6_witness :
  NoDup (map fst (user_contexts manager_u)) /\
  lookup "u" (user_contexts manager_u) = Some ctx0 /\
  (session_timeout manager_u < 4000 - last_activity ctx0)%Z /\
  fst (get_context manager_u "u" 4000) = create_new_context "u" 4000.
Proof.
  assert (H1 : NoDup (map fst (user_contexts manager_u))).
  { simpl. constructor; [simpl; tauto | constructor]. }
  assert (H2 : lookup "u" (user_contexts manager_u) = Some ctx0) by reflexivity.
  assert (H3 : (session_timeout manager_u < 4000 - last_activity ctx0)%Z).
  { simpl. lia. }
  split; [exact H1|]. split; [exact H2|]. split; [exact H3|].
  exact (proj1 (C6_expired_context_replaced manager_u "u" ctx0 4000 H1 H2 H3)).
Defined.

End CtxProofs.

Module TrainProofs.
Import PyStr Preprocess Classifier TrainingData Samples.

Lemma collect_spec (c : Corpus) : collect c = (loaded_patterns c, loaded_tags c).
Proof.
  induction c as [|[a ad] c IH]; simpl; [reflexivity|]. rewrite IH.
  destruct (Nat.eqb (length (patterns ad)) (length (tags ad))); reflexivity.
Qed.

(** C7 (as stated), refuted: whatever stop-word list the vectorizer uses,
    the well-formed corpus whose only pattern is "?" keeps one pattern, yet
    [train] returns [False] (the vectorizer finds an empty vocabulary). *)
Lemma C7_counterexample :
  ~ (exists is_stop : string -> bool,
       forall (st : State) (corpus : Corpus),
         fst (train is_stop st corpus) = false <-> fst (collect corpus) = []).
Proof.
  intros [is_stop H]. destruct (H fresh_classifier corpus_no_terms) as [H1 _].
  assert (E : fst (train is_stop fresh_classifier corpus_no_terms) = false)
    by reflexivity.
  specialize (H1 E). discriminate H1.
Qed.

(** C7 (amended): applications with mismatched counts are skipped and all
    others loaded; [train] succeeds exactly when some pattern remains and
    the vectorizer's vocabulary over them is non-empty; with no pattern
    left it fails and leaves the classifier unchanged. *)
Theorem C7_train_skips_mismatched (is_stop : string -> bool) (st : State)
  (corpus : Corpus) :
  (fst (train is_stop st corpus) = true <->
     loaded_patterns corpus <> [] /\ fit_ok is_stop (loaded_patterns corpus) = true) /\
  (loaded_patterns corpus = [] -> train is_stop st corpus = (false, st)) /\
  (fst (train is_stop st corpus) = true ->
     st_patterns (snd (train is_stop st corpus)) = loaded_patterns corpus /\
     st_tags (snd (train is_stop st corpus)) = loaded_tags corpus).
Proof.
  unfold train. rewrite collect_spec.
  destruct (loaded_patterns corpus) as [|p ps] eqn:E.
  - simpl. split; [split; [discriminate | intros [H _]; contradiction]|].
    split; [reflexivity | discriminate].
  - destruct (fit_ok is_stop (p :: ps)) eqn:F; simpl.
    + split; [split; [intros _; split; [discriminate | reflexivity] | reflexivity]|].
      split; [discriminate | intros _; split; reflexivity].
    + split; [split; [discriminate | intros [_ H]; discriminate]|].
      split; [discriminate | discriminate].
Qed.

Lemma app_lookup_assign_same (a : string) (ad : AppData) (apps : Corpus) :
  app_lookup a (app_assign a ad apps) = Some ad.
Proof.
  induction apps as [|[a' ad'] apps IH]; simpl.
  - rewrite String.eqb_refl. reflexivity.
  - destruct (String.eqb a a') eqn:E; simpl; rewrite E; [reflexivity | exact IH].
Qed.

Lemma app_lookup_assign_other (a b : string) (ad : AppData) (apps : Corpus) :
  b <> a -> app_lookup b (app_assign a ad apps) = app_lookup b apps.
Proof.
  intros Hba. induction apps as [|[a' ad'] apps IH]; simpl.
  - destruct (String.eqb b a) eqn:E; [apply String.eqb_eq in E; contradiction|].
    reflexivity.
  - destruct (String.eqb a a') eqn:E; simpl.
    + apply String.eqb_eq in E. subst a'.
      destruct (String.eqb b a) eqn:E'; [apply String.eqb_eq in E'; contradiction|].
      reflexivity.
    + destruct (String.eqb b a'); [reflexivity | exact IH].
Qed.

(** C8: when saving fails, [add_example] returns [False] but the in-memory
    corpus keeps the appended pattern, response and tag (other applications
    are untouched). *)
Theorem C8_add_example_no_rollback (apps : Corpus)
  (application pattern response tag : string) :
  exists apps',
    add_example false (Some apps) application pattern response tag = (false, Some apps') /\
    app_lookup application apps' =
      Some (let old := match app_lookup application apps with
                       | Some ad => ad | None => mkAppData [] [] [] end in
            mkAppData (patterns old ++ [pattern]) (responses old ++ [response])
                      (tags old ++ [tag])) /\
    (forall b, b <> application -> app_lookup b apps' = app_lookup b apps).
Proof.
  eexists. split; [reflexivity|]. split.
  - apply app_lookup_assign_same.
  - intros b Hb. apply app_lookup_assign_other, Hb.
Qed.

(** C9: "_" is made only of punctuation, yet the normalizer returns "_":
    the class [\w] of [re.sub(r'[^\w\s]', '', text)] keeps the underscore. *)
Lemma C9_underscore_kept :
  only_punct_ws "_" = true /\ preprocess_text "_" = "_".
Proof. split; vm_compute; reflexivity. Qed.

Lemma loaded_tags_in (c : Corpus) (ti : string * string) :
  In ti (loaded_tags c) -> In (snd ti) (corpus_tags c).
Proof.
  induction c as [|[a ad] c IH]; simpl; [tauto|].
  intros H. apply in_app_or in H. apply in_or_app.
  destruct H as [H|H]; [|right; exact (IH H)].
  left. destruct (Nat.eqb (length (patterns ad)) (length (tags ad))); [|destruct H].
  apply in_map_iff in H as [t [<- Ht]]. exact Ht.
Qed.

Lemma train_all_inv (is_stop : string -> bool) (cs : list Corpus) :
  forall (st : State) (acc : option Corpus),
  (trained st = true -> exists c, acc = Some c /\
     forall ti, In ti (st_tags st) -> In (snd ti) (corpus_tags c)) ->
  (trained (train_all is_stop st cs) = true -> exists c,
     last_ok is_stop st cs acc = Some c /\
     forall ti, In ti (st_tags (train_all is_stop st cs)) -> In (snd ti) (corpus_tags c)).
Proof.
  induction cs as [|c cs IH]; simpl; intros st acc H; [exact H|].
  destruct (train is_stop st c) as [ok st'] eqn:Etr. simpl.
  apply IH.
  unfold train in Etr. rewrite collect_spec in Etr.
  destruct (loaded_patterns c) as [|p ps]; [injection Etr as <- <-; exact H|].
  destruct (fit_ok is_stop (p :: ps)); injection Etr as <- <-; simpl.
  - intros _. exists c. split; [reflexivity | apply loaded_tags_in].
  - discriminate.
Qed.

Lemma predict_tag_source (cosine_row : list string -> string -> list Q) (st : State)
  (text application : string) (context : option Ctx.Context) :
  fst (predict cosine_row st text application context) = "unknown" \/
  (trained st = true /\ exists ti, In ti (st_tags st) /\
     snd ti = fst (predict cosine_row st text application context)).
Proof.
  unfold predict. destruct (trained st) eqn:Et; simpl; [|left; reflexivity].
  destruct (cosine_row (st_patterns st) text) as [|x xs]; [left; reflexivity|].
  destruct (Qle_bool _ _); [|left; reflexivity].
  destruct (nth_error (st_tags st) _) as [ti|] eqn:En; [|left; reflexivity].
  right. split; [reflexivity|]. exists ti. split; [|reflexivity].
  eapply nth_error_In; exact En.
Qed.

(** C10: after any sequence of [train] calls from a fresh classifier,
    [predict] answers "unknown" or a tag of the corpus of the last
    successful [train] call. *)
Theorem C10_predict_tag_from_corpus (is_stop : string -> bool)
  (cosine_row : list string -> string -> list Q) (min_conf : Q) (cs : list Corpus)
  (text application : string) (context : option Ctx.Context) :
  fst (predict cosine_row (train_all is_stop (init_state min_conf) cs)
         text application context) = "unknown" \/
  exists c, last_ok is_stop (init_state min_conf) cs None = Some c /\
    In (fst (predict cosine_row (train_all is_stop (init_state min_conf) cs)
               text application context)) (corpus_tags c).
Proof.
  destruct (predict_tag_source cosine_row (train_all is_stop (init_state min_conf) cs)
              text application context) as [H|[Ht [ti [Hin Heq]]]];
    [left; exact H|].
  right.
  destruct (train_all_inv is_stop cs (init_state min_conf) None
              ltac:(simpl; discriminate) Ht) as [c [Hc Hall]].
  exists c. split; [exact Hc|]. rewrite <- Heq. apply Hall, Hin.
Qed.

End TrainProofs.

Module ClassifierExtra.
Import Classifier Samples.
Local Open Scope Q_scope.

Lemma argmax_go_spec (rest : list Q) :
  forall (pre : list Q) (best : nat) (bv : Q),
  (best < length pre)%nat -> nth best pre 0 = bv ->
  (forall j, (j < length pre)%nat -> nth j pre 0 <= bv) ->
  (forall j, (j < best)%nat -> nth j pre 0 < bv) ->
  let r := argmax_go rest (length pre) best bv in
  (r < length (pre ++ rest))%nat /\
  (forall j, (j < length (pre ++ rest))%nat -> nth j (pre ++ rest) 0 <= nth r (pre ++ rest) 0) /\
  (forall j, (j < r)%nat -> nth j (pre ++ rest) 0 < nth r (pre ++ rest) 0).
Proof.
  induction rest as [|x rest IH]; intros pre best bv Hb Hbv Hle Hlt; simpl.
  - rewrite app_nil_r. repeat split; auto.
    + intros j Hj. rewrite Hbv. auto.
    + intros j Hj. rewrite Hbv. auto.
  - assert (Hpx : forall j, (j < length pre)%nat -> nth j (pre ++ [x]) 0 = nth j pre 0)
      by (intros; apply app_nth1; assumption).
    assert (Hlast : nth (length pre) (pre ++ [x]) 0 = x)
      by (rewrite app_nth2 by lia; rewrite Nat.sub_diag; reflexivity).
    replace (pre ++ x :: rest) with ((pre ++ [x]) ++ rest)
      by (rewrite <- app_assoc; reflexivity).
    replace (S (length pre)) with (length (pre ++ [x]))
      by (rewrite length_app; simpl; lia).
    destruct (Qle_bool x bv) eqn:E.
    + apply Qle_bool_iff in E. apply IH.
      * rewrite length_app; simpl; lia.
      * rewrite Hpx by assumption. exact Hbv.
      * intros j Hj. rewrite length_app in Hj; simpl in Hj.
        destruct (Nat.eq_dec j (length pre)) as [->|Hne].
        -- rewrite Hlast. exact E.
        -- rewrite Hpx by lia. apply Hle. lia.
      * intros j Hj. rewrite Hpx by lia. apply Hlt, Hj.
    + apply ScoringProofs.Qle_bool_false in E. apply IH.
      * rewrite length_app; simpl; lia.
      * exact Hlast.
      * intros j Hj. rewrite length_app in Hj; simpl in Hj.
        destruct (Nat.eq_dec j (length pre)) as [->|Hne].
        -- rewrite Hlast. apply Qle_refl.
        -- rewrite Hpx by lia. apply Qlt_le_weak.
           apply Qle_lt_trans with bv; [apply Hle; lia | exact E].
      * intros j Hj. rewrite Hpx by lia.
        apply Qle_lt_trans with bv; [apply Hle; lia | exact E].
Qed.

Lemma argmax_spec (l : list Q) :
  l <> [] ->
  (argmax l < length l)%nat /\
  (forall j, (j < length l)%nat -> nth j l 0 <= nth (argmax l) l 0) /\
  (forall j, (j < argmax l)%nat -> nth j l 0 < nth (argmax l) l 0).
Proof.
  destruct l as [|x xs]; [contradiction|]. intros _.
  apply (argmax_go_spec xs [x] 0 x); simpl; auto.
  - intros j Hj. destruct j; [apply Qle_refl | lia].
  - intros j Hj. lia.
Qed.

(** [np.argmax] as used by [predict]: for a non-empty row the index is in
    range, its value is a maximum of the row, and every earlier value is
    strictly smaller (ties go to the first occurrence). *)
Theorem argmax_first_maximum (l : list Q) :
  l <> [] ->
  (argmax l < length l)%nat /\
  (forall j, (j < length l)%nat -> nth j l 0 <= nth (argmax l) l 0) /\
  (forall j, (j < argmax l)%nat -> nth j l 0 < nth (argmax l) l 0).
Proof. apply argmax_spec. Qed.

Lemma argmax_first_maximum_witness :
  [1 # 2; 3 # 4; 3 # 4] <> [] /\
  (forall j, (j < argmax [1 # 2; 3 # 4; 3 # 4])%nat ->
     nth j [1 # 2; 3 # 4; 3 # 4] 0 <
     nth (argmax [1 # 2; 3 # 4; 3 # 4]) [1 # 2; 3 # 4; 3 # 4] 0).
Proof.
  assert (H : [1 # 2; 3 # 4; 3 # 4] <> []) by discriminate.
  split; [exact H|].
  exact (proj2 (proj2 (argmax_first_maximum _ H))).
Defined.

Lemma scoring_range (c : Q) (ti : string * string) (app : string)
  (ctx : option Ctx.Context) :
  0 <= c <= 1 ->
  0 <= apply_context_scoring c ti app ctx <= 21 # 20.
Proof.
  intros [H0 H1]. unfold apply_context_scoring.
  destruct (String.eqb (fst ti) app);
  [destruct (Qle_bool (c * (11 # 10)) 1) eqn:E; simpl;
   [apply Qle_bool_iff in E|]|];
  destruct ctx as [cx|]; try destruct (Ctx.conversation_history cx);
  try destruct (existsb _ _); split; lra.
Qed.

(** [predict]'s confidence: when every similarity of the row lies in
    [0, 1], the returned confidence lies in [0, 1.05]. *)
Theorem predict_confidence_range (cosine_row : list string -> string -> list Q)
  (st : State) (text application : string) (context : option Ctx.Context) :
  Forall (fun x => 0 <= x <= 1) (cosine_row (st_patterns st) text) ->
  0 <= snd (predict cosine_row st text application context) <= 21 # 20.
Proof.
  intros Hrow. unfold predict.
  destruct (trained st); cbn [negb]; [|cbn [snd]; split; lra].
  destruct (cosine_row (st_patterns st) text) as [|x xs] eqn:Er;
    [cbn [snd]; split; lra|].
  destruct (argmax_spec (x :: xs) ltac:(discriminate)) as [Hi _].
  assert (Hin : 0 <= nth (argmax (x :: xs)) (x :: xs) 0 <= 1).
  { rewrite Forall_forall in Hrow. apply Hrow, nth_In, Hi. }
  destruct (Qle_bool _ _).
  - destruct (nth_error _ _) as [ti|]; cbn [snd];
      [apply scoring_range, Hin | split; lra].
  - cbn [snd]. destruct Hin; split; lra.
Qed.

Lemma predict_confidence_range_witness :
  Forall (fun x => 0 <= x <= 1)
    (low_row (st_patterns (mkState (3 # 10) true ["hello"] [("a", "greeting")])) "hi") /\
  0 <= snd (predict low_row (mkState (3 # 10) true ["hello"] [("a", "greeting")])
              "hi" "a" None) <= 21 # 20.
Proof.
  assert (H : Forall (fun x => 0 <= x <= 1)
    (low_row (st_patterns (mkState (3 # 10) true ["hello"] [("a", "greeting")])) "hi")).
  { simpl. constructor; [split; vm_compute; discriminate | constructor]. }
  split; [exact H|]. exact (predict_confidence_range low_row _ "hi" "a" None H).
Defined.

(** A [train] call whose patterns remain but give the vectorizer no
    vocabulary leaves the classifier untrained, even if it was trained
    before: every later [predict] answers ("unknown", 0.0). *)
Theorem failed_fit_disables_predict (is_stop : string -> bool) (st : State)
  (corpus : Corpus) :
  loaded_patterns corpus <> [] ->
  fit_ok is_stop (loaded_patterns corpus) = false ->
  forall (cosine_row : list string -> string -> list Q) (text application : string)
    (context : option Ctx.Context),
  fst (train is_stop st corpus) = false /\
  predict cosine_row (snd (train is_stop st corpus)) text application context
  = ("unknown", 0).
Proof.
  intros Hne Hfit cosine_row text application context.
  unfold train. rewrite TrainProofs.collect_spec.
  destruct (loaded_patterns corpus) as [|p ps]; [contradiction|].
  rewrite Hfit. split; reflexivity.
Qed.

Lemma failed_fit_disables_predict_witness :
  loaded_patterns corpus_no_terms <> [] /\
  fit_ok (fun _ => false) (loaded_patterns corpus_no_terms) = false /\
  predict low_row (snd (train (fun _ => false)
     (mkState (3 # 10) true ["hello"] [("a", "greeting")]) corpus_no_terms))
     "hello" "a" None = ("unknown", 0).
Proof.
  assert (H1 : loaded_patterns corpus_no_terms <> []) by discriminate.
  assert (H2 : fit_ok (fun _ => false) (loaded_patterns corpus_no_terms) = false)
    by reflexivity.
  split; [exact H1|]. split; [exact H2|].
  exact (proj2 (failed_fit_disables_predict (fun _ => false)
                  (mkState (3 # 10) true ["hello"] [("a", "greeting")])
                  corpus_no_terms H1 H2 low_row "hello" "a" None)).
Defined.

End ClassifierExtra.

Module CtxExtra.
Import PyStr StrPred Ctx CtxOps Samples.

Lemma lookup_filter_keep (p : string * Context -> bool) (u : string) (c : Context)
  (l : list (string * Context)) :
  lookup u l = Some c -> p (u, c) = true -> lookup u (filter p l) = Some c.
Proof.
  induction l as [|[u' c'] l IH]; simpl; [discriminate|].
  destruct (String.eqb u u') eqn:E; intros Hl Hp.
  - injection Hl as <-. apply String.eqb_eq in E. subst u'.
    rewrite Hp. simpl. rewrite String.eqb_refl. reflexivity.
  - destruct (p (u', c')); simpl; [rewrite E|]; auto.
Qed.

Lemma lookup_absent_filter (p : string * Context -> bool) (u : string)
  (l : list (string * Context)) :
  ~ In u (map fst l) -> lookup u (filter p l) = None.
Proof.
  intros H. apply CtxProofs.lookup_None. intro H'. apply H.
  apply in_map_iff in H' as [x [Ex Hx]]. apply filter_In in Hx.
  apply in_map_iff. exists x. tauto.
Qed.

Lemma lookup_filter_nodup (p : string * Context -> bool) (u : string) (c : Context)
  (l : list (string * Context)) :
  NoDup (map fst l) ->
  (lookup u (filter p l) = Some c <-> lookup u l = Some c /\ p (u, c) = true).
Proof.
  induction l as [|[u' c'] l IH]; simpl; intros Hnd; [split; [discriminate | tauto]|].
  inversion Hnd as [|? ? Hnin Hnd']; subst.
  destruct (String.eqb u u') eqn:E.
  - apply String.eqb_eq in E. subst u'.
    destruct (p (u, c')) eqn:Ep; simpl.
    + rewrite String.eqb_refl.
      split; [intros H; injection H as <-; tauto | intros [H _]; exact H].
    + rewrite (lookup_absent_filter p u l Hnin).
      split; [discriminate|]. intros [H Hp]. injection H as <-. congruence.
  - destruct (p (u', c')); simpl; [rewrite E|]; apply IH, Hnd'.
Qed.

(** [_cleanup_expired_sessions] keeps exactly the live contexts: a user's
    context survives the sweep iff it was stored and its age is at most
    [session_timeout]. *)
Theorem cleanup_keeps_live (m : Manager) (u : string) (c : Context) (now : Z) :
  NoDup (map fst (user_contexts m)) ->
  (lookup u (user_contexts (cleanup_expired_sessions m now)) = Some c <->
   lookup u (user_contexts m) = Some c /\ (now - last_activity c <= session_timeout m)%Z).
Proof.
  intros Hnd. unfold cleanup_expired_sessions. cbn [user_contexts].
  rewrite (lookup_filter_nodup _ u c _ Hnd).
  rewrite negb_true_iff, Z.ltb_ge. tauto.
Qed.

Lemma cleanup_keeps_live_witness :
  NoDup (map fst (user_contexts manager_u)) /\
  lookup "u" (user_contexts (cleanup_expired_sessions manager_u 100)) = Some ctx0.
Proof.
  assert (H : NoDup (map fst (user_contexts manager_u))).
  { simpl. constructor; [simpl; tauto | constructor]. }
  split; [exact H|].
  apply (proj2 (cleanup_keeps_live manager_u "u" ctx0 100 H)).
  split; [reflexivity | simpl; lia].
Defined.

Lemma get_context_live_aux (m : Manager) (u : string) (c : Context) (now : Z) :
  lookup u (user_contexts m) = Some c ->
  (now - last_activity c <= session_timeout m)%Z ->
  fst (get_context m u now) = set_last_activity c now /\
  lookup u (user_contexts (snd (get_context m u now))) = Some (set_last_activity c now).
Proof.
  intros Hl Hage. unfold get_context, cleanup_expired_sessions. cbn zeta.
  cbn [user_contexts].
  rewrite (lookup_filter_keep _ u c _ Hl).
  - simpl. split; [reflexivity | apply CtxProofs.lookup_assign_same].
  - simpl. apply negb_true_iff, Z.ltb_ge, Hage.
Qed.

(** [get_context] on a live context returns that same context with only
    [last_activity] moved to now, and stores it. *)
Theorem get_context_live (m : Manager) (u : string) (c : Context) (now : Z) :
  lookup u (user_contexts m) = Some c ->
  (now - last_activity c <= session_timeout m)%Z ->
  fst (get_context m u now) = set_last_activity c now /\
  lookup u (user_contexts (snd (get_context m u now))) = Some (set_last_activity c now).
Proof. apply get_context_live_aux. Qed.

Lemma get_context_live_witness :
  lookup "u" (user_contexts manager_u) = Some ctx0 /\
  (100 - last_activity ctx0 <= session_timeout manager_u)%Z /\
  fst (get_context manager_u "u" 100) = set_last_activity ctx0 100.
Proof.
  assert (H1 : lookup "u" (user_contexts manager_u) = Some ctx0) by reflexivity.
  assert (H2 : (100 - last_activity ctx0 <= session_timeout manager_u)%Z)
    by (simpl; lia).
  split; [exact H1|]. split; [exact H2|].
  exact (proj1 (get_context_live manager_u "u" ctx0 100 H1 H2)).
Defined.

Lemma all_chars_append (p : ascii -> bool) (a b : string) :
  all_chars p (String.append a b) = all_chars p a && all_chars p b.
Proof.
  induction a as [|ch a IH]; simpl; [reflexivity|]. rewrite IH. apply andb_assoc.
Qed.

Lemma runs_go_all (keep : ascii -> bool) (s : string) :
  forall cur w, all_chars keep cur = true -> In w (runs_go keep s cur) ->
  all_chars keep w = true.
Proof.
  induction s as [|ch s IH]; simpl; intros cur w Hcur Hin.
  - destruct cur; [destruct Hin | destruct Hin as [<-|[]]; exact Hcur].
  - destruct (keep ch) eqn:Ek.
    + refine (IH _ w _ Hin).
      rewrite all_chars_append, Hcur. simpl. rewrite Ek. reflexivity.
    + destruct cur as [|c0 cur'].
      * exact (IH EmptyString w eq_refl Hin).
      * destruct Hin as [<-|Hin]; [exact Hcur | exact (IH EmptyString w eq_refl Hin)].
Qed.

Lemma extract_loop_cases (pats : list string) (c : Context) (input low : string) :
  extract_loop pats c input low = c \/
  exists n s, extract_loop pats c input low = set_user_name c n /\
              (1 < String.length n)%nat /\ In n (split s).
Proof.
  induction pats as [|p pats IH]; simpl; [left; reflexivity|].
  destruct (contains p low); [|exact IH].
  destruct (split _) as [|n rest] eqn:Es; [left; reflexivity|].
  destruct (1 <? String.length n) eqn:El; [|left; reflexivity].
  right. exists n. eexists. split; [reflexivity|]. split.
  - apply Nat.ltb_lt, El.
  - rewrite Es. left; reflexivity.
Qed.

Lemma extract_loop_none (pats : list string) (c : Context) (input low : string) :
  existsb (fun p => contains p low) pats = false -> extract_loop pats c input low = c.
Proof.
  induction pats as [|p pats IH]; simpl; [reflexivity|].
  destruct (contains p low); [discriminate | exact IH].
Qed.

(** [_extract_user_name] either keeps the stored name or stores a token of
    at least two characters without whitespace; when no introduction phrase
    occurs in the lowercased input, the context is left unchanged. *)
Theorem extracted_name_shape (c : Context) (user_input : string) :
  (user_name (extract_user_name c user_input) = user_name c \/
   exists n, user_name (extract_user_name c user_input) = Some n /\
             (1 < String.length n)%nat /\
             all_chars (fun ch => negb (is_space ch)) n = true) /\
  (any_in name_patterns (lower user_input) = false ->
   extract_user_name c user_input = c).
Proof.
  split.
  - unfold extract_user_name.
    destruct (extract_loop_cases name_patterns c user_input (lower user_input))
      as [->|[n [s [-> [Hl Hin]]]]]; [left; reflexivity|].
    right. exists n. split; [reflexivity|]. split; [exact Hl|].
    exact (runs_go_all _ s EmptyString n eq_refl Hin).
  - intros H. apply extract_loop_none, H.
Qed.

Lemma extracted_name_shape_witness :
  any_in name_patterns (lower "hello there") = false /\
  extract_user_name ctx0 "hello there" = ctx0.
Proof.
  assert (H : any_in name_patterns (lower "hello there") = false)
    by (vm_compute; reflexivity).
  split; [exact H | exact (proj2 (extracted_name_shape ctx0 "hello there") H)].
Defined.

Lemma extract_loop_fields (pats : list string) (c : Context) (input low : string) :
  let c' := extract_loop pats c input low in
  conversation_history c' = conversation_history c /\
  current_application c' = current_application c /\
  last_activity c' = last_activity c /\ message_count c' = message_count c.
Proof.
  destruct (extract_loop_cases pats c input low) as [->|[n [s [-> _]]]];
  repeat split.
Qed.

Lemma get_context_facts (m : Manager) (u : string) (now : Z) :
  last_activity (fst (get_context m u now)) = now /\
  max_context_length (snd (get_context m u now)) = max_context_length m /\
  session_timeout (snd (get_context m u now)) = session_timeout m /\
  message_count (fst (get_context m u now)) =
    match lookup u (user_contexts (cleanup_expired_sessions m now)) with
    | Some c => message_count c | None => 0%nat end.
Proof.
  unfold get_context. destruct (lookup u _); repeat split.
Qed.

Lemma update_vars_extract_fields (c : Context) (input input' intent : string) :
  let c' := update_context_variables (extract_user_name c input) input' intent in
  conversation_history c' = conversation_history c /\
  current_application c' = current_application c /\
  last_activity c' = last_activity c /\ message_count c' = message_count c.
Proof.
  unfold extract_user_name.
  destruct (extract_loop_fields name_patterns c input (lower input)) as [E1 [E2 [E3 E4]]].
  unfold update_context_variables, set_vars. cbn zeta.
  cbn [conversation_history current_application last_activity message_count].
  rewrite E1, E2, E3, E4. repeat split.
Qed.

Lemma update_context_result (m : Manager) (u i r t a : string) (now : Z) :
  exists c',
    lookup u (user_contexts (update_context m u i r t a now)) = Some c' /\
    last_activity c' = now /\ current_application c' = a /\
    message_count c' = S (match lookup u (user_contexts (cleanup_expired_sessions m now)) with
                          | Some c => message_count c | None => 0%nat end) /\
    conversation_history c' =
      deque_append (max_context_length m)
        (conversation_history (fst (get_context m u now))) (mkTurn now i r t a) /\
    max_context_length (update_context m u i r t a now) = max_context_length m /\
    session_timeout (update_context m u i r t a now) = session_timeout m.
Proof.
  destruct (get_context_facts m u now) as [H1 [H2 [H3 H4]]].
  unfold update_context. destruct (get_context m u now) as [c0 m1].
  cbn [fst snd] in *. cbn zeta. cbn [user_contexts max_context_length session_timeout].
  eexists. split; [apply CtxProofs.lookup_assign_same|].
  match goal with
  | |- context [update_context_variables (extract_user_name ?c ?i) ?i' ?t] =>
      destruct (update_vars_extract_fields c i i' t) as [E1 [E2 [E3 E4]]]
  end.
  rewrite E1, E2, E3, E4. unfold set_history.
  cbn [conversation_history current_application last_activity message_count].
  rewrite H2, H3, <- H4, <- H1. repeat split.
Qed.

Lemma last3_snoc {A} (l : list A) (x : A) :
  exists pre, Classifier.last3 (l ++ [x]) = pre ++ [x].
Proof.
  unfold Classifier.last3. rewrite length_app. simpl.
  rewrite skipn_app.
  replace (length l + 1 - 3 - length l)%nat with 0%nat by lia. simpl.
  eexists; reflexivity.
Qed.

Lemma deque_append_snoc (n : nat) (d : list Turn) (x : Turn) :
  (0 < n)%nat -> exists pre, deque_append n d x = pre ++ [x].
Proof.
  intros Hn. unfold deque_append, deque_of. rewrite length_app. simpl.
  rewrite skipn_app.
  replace (length d + 1 - n - length d)%nat with 0%nat by lia. simpl.
  eexists; reflexivity.
Qed.

(** [update_context] followed by [get_context_summary] at the same time
    (timeout >= 0, capacity >= 1): the summary shows the new application,
    the message count one above the live count before (0 for a new or
    expired session), and at most three recent intents ending with the
    turn's intent. *)
Theorem update_then_summary (m : Manager) (u i r t a : string) (now : Z) :
  (0 <= session_timeout m)%Z -> (0 < max_context_length m)%nat ->
  let s := fst (CtxOps.get_context_summary (update_context m u i r t a now) u now) in
  s_current_application s = a /\
  s_message_count s =
    S (match lookup u (user_contexts (cleanup_expired_sessions m now)) with
       | Some c => message_count c | None => 0%nat end) /\
  (length (s_recent_intents s) <= 3)%nat /\
  exists pre, s_recent_intents s = pre ++ [t].
Proof.
  intros Ht Hn.
  destruct (update_context_result m u i r t a now)
    as [c' [Hl [Hla [Hap [Hmc [Hh [Hmax Hto]]]]]]].
  assert (Hage : (now - last_activity c' <=
                   session_timeout (update_context m u i r t a now))%Z)
    by (rewrite Hla, Hto, Z.sub_diag; exact Ht).
  destruct (get_context_live_aux _ u c' now Hl Hage) as [E _].
  unfold get_context_summary.
  destruct (get_context (update_context m u i r t a now) u now) as [c1 m2].
  cbn [fst] in E. subst c1. cbn zeta. unfold set_last_activity.
  cbn [fst s_current_application s_message_count s_recent_intents
       current_application message_count conversation_history].
  split; [exact Hap|]. split; [exact Hmc|].
  rewrite Hh.
  destruct (deque_append_snoc (max_context_length m)
              (conversation_history (fst (get_context m u now))) (mkTurn now i r t a) Hn)
    as [pre Hpre].
  rewrite Hpre. split.
  - unfold Classifier.last3. rewrite length_map, length_skipn. lia.
  - destruct (last3_snoc pre (mkTurn now i r t a)) as [pre' Hp'].
    rewrite Hp', map_app. eexists; reflexivity.
Qed.

Lemma update_then_summary_witness :
  (0 <= session_timeout manager_u)%Z /\ (0 < max_context_length manager_u)%nat /\
  (length (s_recent_intents (fst (CtxOps.get_context_summary
    (update_context manager_u "u" "hi" "Hello!" "greeting" "customer_support" 5) "u" 5)))
   <= 3)%nat.
Proof.
  assert (H1 : (0 <= session_timeout manager_u)%Z) by (simpl; lia).
  assert (H2 : (0 < max_context_length manager_u)%nat) by (simpl; lia).
  split; [exact H1|]. split; [exact H2|].
  exact (proj1 (proj2 (proj2 (update_then_summary manager_u "u" "hi" "Hello!"
           "greeting" "customer_support" 5 H1 H2)))).
Defined.

End CtxExtra.

Module CtxExtra2.
Import PyStr Ctx CtxOps Samples CtxExtra.

(** [get_conversation_history] returns a suffix of the live history: the
    last [min limit (length history)] turns for a positive [limit], the
    whole history for [None] or a non-positive [limit]. *)
Theorem conversation_history_suffix (m : Manager) (u : string) (limit : option Z) (now : Z) :
  let h := conversation_history (fst (get_context m u now)) in
  let r := fst (get_conversation_history m u limit now) in
  (exists pre, pre ++ r = h) /\
  length r = match limit with
             | Some l => if Z.ltb 0 l then Nat.min (Z.to_nat l) (length h) else length h
             | None => length h
             end.
Proof.
  unfold get_conversation_history.
  destruct (get_context m u now) as [c m1]. cbn [fst]. cbn zeta.
  destruct limit as [l|]; [destruct (Z.ltb 0 l)|]; cbn [fst].
  - split.
    + exists (firstn (length (conversation_history c) - Z.to_nat l)
                     (conversation_history c)).
      apply firstn_skipn.
    + rewrite length_skipn. lia.
  - split; [exists []; reflexivity | reflexivity].
  - split; [exists []; reflexivity | reflexivity].
Qed.

Lemma kv_get_set_same (k v : string) (l : list (string * string)) :
  kv_get k (kv_set k v l) = Some v.
Proof.
  induction l as [|[k' v'] l IH]; simpl; [rewrite String.eqb_refl; reflexivity|].
  destruct (String.eqb k k') eqn:E; simpl; rewrite E; [reflexivity | exact IH].
Qed.

Lemma kv_get_set_other (k k2 v : string) (l : list (string * string)) :
  k2 <> k -> kv_get k2 (kv_set k v l) = kv_get k2 l.
Proof.
  intros Hne.
  induction l as [|[k' v'] l IH]; simpl.
  - destruct (String.eqb k2 k) eqn:E; [apply String.eqb_eq in E; congruence|reflexivity].
  - destruct (String.eqb k k') eqn:E; simpl.
    + apply String.eqb_eq in E. subst k'.
      destruct (String.eqb k2 k) eqn:E2; [apply String.eqb_eq in E2; congruence|reflexivity].
    + destruct (String.eqb k2 k'); [reflexivity | exact IH].
Qed.

Lemma set_user_preference_stored (m : Manager) (u k v : string) (now : Z) :
  let c0 := fst (get_context m u now) in
  let m' := set_user_preference m u k v now in
  lookup u (user_contexts m') =
    Some (set_preferences c0 (kv_set k v (user_preferences c0))) /\
  last_activity c0 = now /\ session_timeout m' = session_timeout m.
Proof.
  destruct (get_context_facts m u now) as [H1 [_ [H3 _]]].
  unfold set_user_preference.
  destruct (get_context m u now) as [c0 m1]. cbn [fst snd] in *.
  split; [apply CtxProofs.lookup_assign_same|]. split; [exact H1 | exact H3].
Qed.

Lemma get_user_preference_fst (m : Manager) (u k d : string) (now : Z) :
  fst (get_user_preference m u k d now) =
  match kv_get k (user_preferences (fst (get_context m u now))) with
  | Some v => v | None => d end.
Proof. unfold get_user_preference. destruct (get_context m u now); reflexivity. Qed.

(** Preference round trip: a value set with [set_user_preference] is what
    [get_user_preference] returns for that key while the session is alive,
    and every other key reads as before. *)
Theorem preference_round_trip (m : Manager) (u k v d : string) (now now' : Z) :
  (now' - now <= session_timeout m)%Z ->
  fst (get_user_preference (set_user_preference m u k v now) u k d now') = v /\
  (forall k2, k2 <> k ->
     fst (get_user_preference (set_user_preference m u k v now) u k2 d now') =
     fst (get_user_preference m u k2 d now)).
Proof.
  intros Hage.
  destruct (set_user_preference_stored m u k v now) as [Hl [Hla Hto]].
  set (c0 := fst (get_context m u now)) in *.
  assert (Hage' : (now' - last_activity (set_preferences c0 (kv_set k v (user_preferences c0)))
                   <= session_timeout (set_user_preference m u k v now))%Z).
  { unfold set_preferences. cbn [last_activity]. rewrite Hla, Hto. exact Hage. }
  destruct (get_context_live_aux _ u _ now' Hl Hage') as [E _].
  rewrite !get_user_preference_fst, E.
  unfold set_last_activity, set_preferences. cbn [user_preferences]. split.
  - rewrite kv_get_set_same. reflexivity.
  - intros k2 Hne. rewrite !get_user_preference_fst, E.
    unfold set_last_activity, set_preferences. cbn [user_preferences].
    rewrite (kv_get_set_other k k2 v _ Hne). reflexivity.
Qed.

Lemma preference_round_trip_witness :
  (7 - 5 <= session_timeout manager_u)%Z /\
  fst (get_user_preference (set_user_preference manager_u "u" "lang" "en" 5)
         "u" "lang" "none" 7) = "en".
Proof.
  assert (H : (7 - 5 <= session_timeout manager_u)%Z) by (simpl; lia).
  split; [exact H|].
  exact (proj1 (preference_round_trip manager_u "u" "lang" "en" "none" 5 7 H)).
Defined.

Lemma lookup_remove_key_same (u : string) (l : list (string * Context)) :
  lookup u (remove_key u l) = None.
Proof.
  unfold remove_key.
  induction l as [|[u' c'] l IH]; simpl; [reflexivity|].
  destruct (String.eqb u u') eqn:E; simpl; [exact IH|]. rewrite E. exact IH.
Qed.

Lemma lookup_remove_key_other (u u2 : string) (l : list (string * Context)) :
  u2 <> u -> lookup u2 (remove_key u l) = lookup u2 l.
Proof.
  intros Hne. unfold remove_key.
  induction l as [|[u' c'] l IH]; simpl; [reflexivity|].
  destruct (String.eqb u u') eqn:E; simpl.
  - apply String.eqb_eq in E. subst u'.
    destruct (String.eqb u2 u) eqn:E2; [apply String.eqb_eq in E2; congruence | exact IH].
  - destruct (String.eqb u2 u'); [reflexivity | exact IH].
Qed.

(** [clear_context] reports [True] exactly when the user had a stored
    context; afterwards the user has none, and every other user's context is
    untouched. *)
Theorem clear_context_spec (m : Manager) (u : string) :
  (fst (clear_context m u) = true <-> exists c, lookup u (user_contexts m) = Some c) /\
  lookup u (user_contexts (snd (clear_context m u))) = None /\
  (forall u2, u2 <> u ->
     lookup u2 (user_contexts (snd (clear_context m u))) = lookup u2 (user_contexts m)).
Proof.
  unfold clear_context.
  destruct (lookup u (user_contexts m)) as [c|] eqn:E; cbn [fst snd user_contexts].
  - split; [split; [intros _; exists c; reflexivity | reflexivity]|].
    split; [apply lookup_remove_key_same|]. intros u2 Hne. apply lookup_remove_key_other, Hne.
  - split; [split; [discriminate | intros [c Hc]; discriminate]|].
    split; [exact E | reflexivity].
Qed.

Lemma clear_context_spec_witness :
  lookup "v" (user_contexts (snd (clear_context manager_u "u"))) =
  lookup "v" (user_contexts manager_u).
Proof.
  refine (proj2 (proj2 (clear_context_spec manager_u "u")) "v" _). discriminate.
Defined.


Lemma set_history_same (c : Context) : set_history c (conversation_history c) = c.
Proof. destruct c; reflexivity. Qed.



(** Export/import round trip: a context exported from a manager whose
    histories respect its capacity is restored exactly by importing it
    into a manager of at least that capacity. *)
Theorem export_import_round_trip (m m2 : Manager) (u : string) (c : Context) :
  history_bounded m -> (max_context_length m <= max_context_length m2)%nat ->
  export_context m u = Some c ->
  export_context (snd (import_context m2 u c)) u = Some c.
Proof.
  intros Hb Hle He.
  unfold history_bounded in Hb.
  apply CtxProofs.lookup_In in He.
  rewrite Forall_forall in Hb. specialize (Hb _ He). cbn [snd] in Hb.
  unfold export_context, import_context. cbn [snd user_contexts].
  rewrite CtxProofs.lookup_assign_same. unfold deque_of.
  replace (length (conversation_history c) - max_context_length m2)%nat with 0%nat by lia.
  cbn [skipn]. rewrite set_history_same. reflexivity.
Qed.

Lemma export_import_round_trip_witness :
  history_bounded manager_full /\
  (max_context_length manager_full <= max_context_length manager_u)%nat /\
  export_context manager_full "u" = Some ctx_three /\
  export_context (snd (import_context manager_u "u" ctx_three)) "u" = Some ctx_three.
Proof.
  assert (H1 : history_bounded manager_full).
  { unfold history_bounded. simpl. constructor; [simpl; lia | constructor]. }
  assert (H2 : (max_context_length manager_full <= max_context_length manager_u)%nat)
    by (simpl; lia).
  assert (H3 : export_context manager_full "u" = Some ctx_three) by reflexivity.
  split; [exact H1|]. split; [exact H2|]. split; [exact H3|].
  exact (export_import_round_trip manager_full manager_u "u" ctx_three H1 H2 H3).
Defined.

End CtxExtra2.

Module TrainingDataExtra.
Import Classifier TrainingData TrainingDataOps Samples.

Section Sums.
Variable f : AppData -> nat.

Lemma fold_sum_shift (l : Corpus) : forall n,
  fold_left (fun acc '(_, ad) => acc + f ad) l n =
  n + fold_left (fun acc '(_, ad) => acc + f ad) l 0.
Proof.
  induction l as [|[a ad] l IH]; simpl; intros n; [lia|].
  rewrite (IH (n + f ad)), (IH (f ad)). lia.
Qed.

Lemma fold_sum_assign_found (a : string) (ad ad0 : AppData) (apps : Corpus) :
  app_lookup a apps = Some ad0 ->
  fold_left (fun acc '(_, x) => acc + f x) (app_assign a ad apps) 0 + f ad0 =
  fold_left (fun acc '(_, x) => acc + f x) apps 0 + f ad.
Proof.
  induction apps as [|[a' x] apps IH]; simpl; [discriminate|].
  destruct (String.eqb a a'); intros H.
  - injection H as <-. simpl.
    rewrite (fold_sum_shift apps (f ad)), (fold_sum_shift apps (f x)). lia.
  - simpl. rewrite (fold_sum_shift (app_assign a ad apps) (f x)),
                   (fold_sum_shift apps (f x)).
    specialize (IH H). lia.
Qed.

Lemma fold_sum_assign_new (a : string) (ad : AppData) (apps : Corpus) :
  app_lookup a apps = None ->
  fold_left (fun acc '(_, x) => acc + f x) (app_assign a ad apps) 0 =
  fold_left (fun acc '(_, x) => acc + f x) apps 0 + f ad.
Proof.
  induction apps as [|[a' x] apps IH]; simpl; [reflexivity|].
  destruct (String.eqb a a'); intros H; [discriminate|].
  simpl. rewrite (fold_sum_shift (app_assign a ad apps) (f x)),
                 (fold_sum_shift apps (f x)).
  specialize (IH H). lia.
Qed.

End Sums.

Lemma app_assign_keys (a : string) (ad : AppData) (apps : Corpus) :
  map fst (app_assign a ad apps) =
  match app_lookup a apps with Some _ => map fst apps | None => map fst apps ++ [a] end.
Proof.
  induction apps as [|[a' x] apps IH]; simpl; [reflexivity|].
  destruct (String.eqb a a'); simpl; [reflexivity|].
  rewrite IH. destruct (app_lookup a apps); reflexivity.
Qed.

(** [add_example] on loaded data: [get_stats] counts one more pattern and
    one more response, and one more application exactly when the
    application was new. *)
Theorem add_example_stats (save_ok : bool) (apps : Corpus) (a p r t : string) :
  exists s s',
    get_stats (Some apps) = Some s /\
    get_stats (snd (add_example save_ok (Some apps) a p r t)) = Some s' /\
    total_patterns s' = S (total_patterns s) /\
    total_responses s' = S (total_responses s) /\
    total_applications s' =
      total_applications s + match app_lookup a apps with Some _ => 0 | None => 1 end.
Proof.
  do 2 eexists. split; [reflexivity|]. split; [reflexivity|].
  cbn [add_example snd get_stats total_patterns total_responses total_applications].
  destruct (app_lookup a apps) as [ad0|] eqn:E; cbn [patterns responses tags].
  - pose proof (fold_sum_assign_found (fun x => length (patterns x)) a
        (mkAppData (patterns ad0 ++ [p]) (responses ad0 ++ [r]) (tags ad0 ++ [t]))
        ad0 apps E) as Hp.
    pose proof (fold_sum_assign_found (fun x => length (responses x)) a
        (mkAppData (patterns ad0 ++ [p]) (responses ad0 ++ [r]) (tags ad0 ++ [t]))
        ad0 apps E) as Hr.
    cbv beta in Hp, Hr. cbn [patterns responses] in Hp, Hr. rewrite length_app in Hp, Hr. cbn [length] in Hp, Hr.
    split; [lia|]. split; [lia|].
    rewrite <- (length_map fst (app_assign _ _ _)), app_assign_keys, E, length_map. lia.
  - rewrite (fold_sum_assign_new (fun x => length (patterns x))),
            (fold_sum_assign_new (fun x => length (responses x))) by exact E.
    cbv beta. cbn [patterns responses length app].
    split; [lia|]. split; [lia|].
    rewrite <- (length_map fst (app_assign _ _ _)), app_assign_keys, E, length_app,
              length_map. reflexivity.
Qed.

(** [get_all_applications] after [add_example]: the application names keep
    their order, and a new application is appended at the end. *)
Theorem add_example_applications (save_ok : bool) (apps : Corpus) (a p r t : string) :
  get_all_applications (snd (add_example save_ok (Some apps) a p r t)) =
  Some (match app_lookup a apps with
        | Some _ => map fst apps
        | None => map fst apps ++ [a]
        end).
Proof.
  cbn [add_example snd get_all_applications]. rewrite app_assign_keys. reflexivity.
Qed.

Lemma app_assign_In (a : string) (ad : AppData) (apps : Corpus) :
  In (a, ad) (app_assign a ad apps).
Proof.
  induction apps as [|[a' x] apps IH]; simpl; [left; reflexivity|].
  destruct (String.eqb a a') eqn:E.
  - apply String.eqb_eq in E. subst a'. left; reflexivity.
  - right; exact IH.
Qed.

(** An example added with [add_example] to an application whose pattern and
    tag counts agree (or to a new application) is one the next [train]
    keeps: its pattern and its tag, paired with the application, are among
    the loaded records. *)
Theorem add_example_is_trained (save_ok : bool) (apps : Corpus) (a p r t : string) :
  match app_lookup a apps with
  | Some ad => length (patterns ad) = length (tags ad)
  | None => True
  end ->
  exists apps',
    snd (add_example save_ok (Some apps) a p r t) = Some apps' /\
    In p (loaded_patterns apps') /\ In (a, t) (loaded_tags apps').
Proof.
  intros Hbal. eexists. split; [reflexivity|].
  set (ad := mkAppData _ _ _).
  assert (Hin : In (a, ad) (app_assign a ad apps)) by apply app_assign_In.
  assert (Heq : Nat.eqb (length (patterns ad)) (length (tags ad)) = true).
  { subst ad. apply Nat.eqb_eq. cbn [patterns tags].
    destruct (app_lookup a apps) as [ad0|]; rewrite !length_app; [rewrite Hbal|]; reflexivity. }
  unfold loaded_patterns, loaded_tags. split.
  - apply in_flat_map. exists (a, ad). split; [exact Hin|]. rewrite Heq.
    subst ad. cbn [patterns]. apply in_or_app. right; left; reflexivity.
  - apply in_flat_map. exists (a, ad). split; [exact Hin|]. rewrite Heq.
    apply in_map. subst ad. cbn [tags]. apply in_or_app. right; left; reflexivity.
Qed.

Lemma add_example_is_trained_witness :
  length (patterns (mkAppData ["?"] ["Sorry?"] ["unclear"])) =
  length (tags (mkAppData ["?"] ["Sorry?"] ["unclear"])) /\
  exists apps',
    snd (add_example true (Some corpus_no_terms) "customer_support" "where is my parcel"
           "Let me check." "shipping") = Some apps' /\
    In "where is my parcel" (loaded_patterns apps') /\
    In ("customer_support", "shipping") (loaded_tags apps').
Proof.
  split; [reflexivity|].
  exact (add_example_is_trained true corpus_no_terms "customer_support"
           "where is my parcel" "Let me check." "shipping" eq_refl).
Defined.

End TrainingDataExtra.

Module BotExtra.
Import PyStr Preprocess SimpleBot Samples.

Lemma Qlit_range (k n : nat) : (k <= n)%nat -> (0 < n)%nat ->
  (0 <= Z.of_nat k # Pos.of_nat n /\ Z.of_nat k # Pos.of_nat n <= 1)%Q.
Proof.
  intros Hk Hn. unfold Qle. cbn [Qnum Qden].
  destruct n as [|n]; [lia|]. rewrite <- Pos.of_nat_succ.
  change (Z.pos (Pos.of_succ_nat n)) with (Z.of_nat (S n)). lia.
Qed.

Lemma length_filter_le {A} (f : A -> bool) (l : list A) : length (filter f l) <= length l.
Proof. induction l as [|x l IH]; simpl; [lia|]. destruct (f x); simpl; lia. Qed.

Lemma best_match_range ci gs p : forall r0 c0 r c,
  (0 <= c0 <= 1)%Q -> best_match ci gs p r0 c0 = Some (r, c) -> (0 <= c <= 1)%Q.
Proof.
  induction gs as [|[pg rs] gs IH]; simpl; intros r0 c0 r c Hc H.
  - injection H as _ <-. exact Hc.
  - destruct (Qle_bool _ c0); [exact (IH _ _ _ _ Hc H)|].
    destruct (random_choice ci rs); [|discriminate].
    refine (IH _ _ _ _ _ H).
    destruct pg as [|p0 pg']; [lra|].
    apply Qlit_range; [apply length_filter_le | simpl; lia].
Qed.

Ltac crush :=
  repeat match goal with
  | |- context [match ?x with _ => _ end] =>
      let E := fresh "E" in destruct x eqn:E
  end.

Ltac crush_all :=
  repeat (match goal with
          | H : (_, _) = (_, _) |- _ => injection H as; subst
          | H : Some _ = Some _ |- _ => injection H as; subst
          | H : None = Some _ |- _ => discriminate H
          | |- context [match ?x with _ => _ end] =>
              let E := fresh "E" in destruct x eqn:E
          | H : context [match ?x with _ => _ end] |- _ =>
              let E := fresh "E" in destruct x eqn:E
          end; try congruence).

(** [get_response]'s confidence is 0 (empty input or an exception), 0.1
    (a fallback reply), or a match ratio between 0.3 and 1. *)
Theorem bot_confidence_range ci tbl st input u app now :
  let c := confidence (fst (get_response ci tbl st input u app now)) in
  c = 0%Q \/ c = (1 # 10)%Q \/ (3 # 10 <= c <= 1)%Q.
Proof.
  unfold get_response. crush; cbn [fst confidence]; auto.
  destruct (falsy o || negb (Qle_bool (3 # 10) q)) eqn:Hc.
  - destruct (random_choice _ _) in E4; [injection E4 as _ <-; auto | discriminate].
  - injection E4 as _ <-. right; right.
    apply orb_false_iff in Hc as [_ Hq]. apply negb_false_iff, Qle_bool_iff in Hq.
    split; [exact Hq|].
    refine (proj2 (best_match_range _ _ _ _ _ _ _ _ E2)). lra.
Qed.

Lemma random_choice_some ci (l : list string) : l <> [] -> exists r, random_choice ci l = Some r.
Proof.
  destruct l as [|x l']; [congruence|]. intros _. unfold random_choice.
  destruct (nth_error (x :: l') (ci (x :: l') mod length (x :: l'))) eqn:E; [eauto|].
  apply nth_error_None in E.
  pose proof (Nat.mod_upper_bound (ci (x :: l')) (length (x :: l'))) as H.
  simpl in *. lia.
Qed.

Lemma best_match_some ci gs p : forall r0 c0,
  Forall (fun g => snd g <> []) gs -> exists r c, best_match ci gs p r0 c0 = Some (r, c).
Proof.
  induction gs as [|[pg rs] gs IH]; simpl; intros r0 c0 H; [eauto|].
  inversion H as [|? ? Hrs Hgs]; subst. cbn [snd] in Hrs.
  destruct (Qle_bool _ c0); [exact (IH _ _ Hgs)|].
  destruct (random_choice_some ci rs Hrs) as [r Hr]. rewrite Hr. exact (IH _ _ Hgs).
Qed.

Lemma fallbacks_some ci app : exists r,
  random_choice ci (match get app fallbacks with
                    | Some l => l | None => ["How can I help you today?"] end) = Some r.
Proof.
  apply random_choice_some. unfold fallbacks. cbn [get].
  repeat match goal with |- context [String.eqb ?a ?b] => destruct (String.eqb a b) end;
  discriminate.
Qed.

Lemma get_put_same {A} (k : string) (v : A) (l : list (string * A)) : get k (put k v l) = Some v.
Proof.
  induction l as [|[k' v'] l IH]; simpl; [rewrite String.eqb_refl; reflexivity|].
  destruct (String.eqb k k') eqn:E; simpl; rewrite E; [reflexivity | exact IH].
Qed.

Lemma Forall_put {A} (P : string * A -> Prop) k v l :
  Forall P l -> (forall k', P (k', v)) -> Forall P (put k v l).
Proof.
  induction l as [|[k' v'] l IH]; simpl; intros Hl Hv; [constructor; auto|].
  inversion Hl; subst. destruct (String.eqb k k'); constructor; auto.
Qed.

Lemma keep_last5_le h : length (keep_last5 h) <= 5.
Proof.
  unfold keep_last5. destruct (5 <? length h) eqn:E.
  - rewrite length_skipn. lia.
  - apply Nat.ltb_ge in E. exact E.
Qed.

Lemma table_groups_ok (tbl : Table) app :
  (forall gs, get app tbl = Some gs -> Forall (fun g => snd g <> []) gs) ->
  Forall (fun g => snd g <> []) (match get app tbl with Some g => g | None => [] end).
Proof. intros H. destruct (get app tbl) eqn:E; [exact (H _ eq_refl) | constructor]. Qed.

(** Every stored conversation history holds at most 5 turns, and
    [get_response] keeps it so. *)
Theorem bot_history_at_most_5 ci tbl st input u app now :
  Forall (fun kc => length (b_history (snd kc)) <= 5) st ->
  Forall (fun kc => length (b_history (snd kc)) <= 5)
    (snd (get_response ci tbl st input u app now)).
Proof.
  intros Hst.
  assert (Hinit : forall c st1,
    match get u st with
    | Some c => (c, st)
    | None => (mkBotCtx [] app None, put u (mkBotCtx [] app None) st)
    end = (c, st1) ->
    Forall (fun kc => length (b_history (snd kc)) <= 5) st1).
  { intros c st1 H. destruct (get u st); injection H as _ <-; [exact Hst|].
    apply Forall_put; [exact Hst | intros; simpl; lia]. }
  unfold get_response. crush; cbn [snd]; auto.
  all: try (eapply Hinit; eassumption).
  all: apply Forall_put; [eapply Hinit; eassumption | intros; apply keep_last5_le].
Qed.

Lemma keep_last5_gt1 h x : 1 < length (keep_last5 (h ++ [x])) -> h <> [].
Proof.
  intros H ->. unfold keep_last5 in H. simpl in H. lia.
Qed.

(** [context_used] is true only when the user already had a non-empty
    history before the call: a first message never uses context. *)
Theorem bot_context_used_needs_history ci tbl st input u app now :
  context_used (fst (get_response ci tbl st input u app now)) = true ->
  exists c, get u st = Some c /\ b_history c <> [].
Proof.
  unfold get_response. crush; cbn [fst context_used]; try discriminate.
  all: intros H; apply Nat.ltb_lt, keep_last5_gt1 in H.
  all: repeat match type of E6 with
         | context [match ?x with _ => _ end] => let E := fresh "F" in destruct x eqn:E
         end; try discriminate.
  all: injection E6 as <- <-; cbn [b_history] in H.
  all: destruct (get u st) eqn:Eg; [|injection E1 as <- _; simpl in H; congruence].
  all: injection E1 as <- _; eauto.
Qed.

(** When every response list of the application is non-empty, a message
    containing "my name is" followed by a word of at least two characters
    stores that word as the user's name and prefixes the reply with
    "Nice to meet you, <name>! ". *)
Theorem bot_name_learned ci tbl st input u app now n rest :
  (forall gs, get app tbl = Some gs -> Forall (fun g => snd g <> []) gs) ->
  strip input <> EmptyString ->
  contains "my name is" (lower input) = true ->
  name_tail input = n :: rest -> 1 < String.length n ->
  (exists r, response (fst (get_response ci tbl st input u app now)) =
     String.append "Nice to meet you, " (String.append n (String.append "! " r))) /\
  exists c, get u (snd (get_response ci tbl st input u app now)) = Some c /\
            b_user_name c = Some n.
Proof.
  intros Htbl Hnb Hc Hn Hl.
  destruct (best_match_some ci _ (preprocess_text input) None 0 (table_groups_ok tbl app Htbl))
    as [r0 [c0 Hbm]].
  destruct (fallbacks_some ci app) as [rf Hrf].
  apply Nat.ltb_lt in Hl.
  unfold get_response. rewrite Hbm, Hc, Hn, Hrf. cbv iota beta. rewrite Hl.
  destruct input as [|a s]; [exfalso; apply Hnb; reflexivity|].
  destruct (strip (String a s)) eqn:Es; [congruence|].
  crush_all.
  all: split; [eexists; reflexivity | eexists; split; [apply get_put_same | reflexivity]].
Qed.

(** When every response list of the application is non-empty, a message
    containing "my name is" with nothing after it raises inside the [try]
    ([split()[0]] on an empty list): the reply is the apology, and only the
    newly created empty context (if any) is stored. *)
Theorem bot_name_missing_apology ci tbl st input u app now :
  (forall gs, get app tbl = Some gs -> Forall (fun g => snd g <> []) gs) ->
  strip input <> EmptyString ->
  contains "my name is" (lower input) = true ->
  name_tail input = [] ->
  get_response ci tbl st input u app now =
    (apology app, match get u st with
                  | Some _ => st
                  | None => put u (mkBotCtx [] app None) st
                  end).
Proof.
  intros Htbl Hnb Hc Hn.
  destruct (best_match_some ci _ (preprocess_text input) None 0 (table_groups_ok tbl app Htbl))
    as [r0 [c0 Hbm]].
  destruct (fallbacks_some ci app) as [rf Hrf].
  unfold get_response. rewrite Hbm, Hc, Hn, Hrf. cbv iota beta.
  destruct input as [|a s]; [exfalso; apply Hnb; reflexivity|].
  destruct (strip (String a s)) eqn:Es; [congruence|].
  crush_all.
Qed.

(** When every response list of the application is non-empty, a user
    with a stored non-empty name who asks a how/what/when/where question
    (and does not introduce themselves again) gets the reply with
    " By the way, <name>!" appended. *)
Theorem bot_name_personalised ci tbl st input u app now c name :
  (forall gs, get app tbl = Some gs -> Forall (fun g => snd g <> []) gs) ->
  strip input <> EmptyString ->
  contains "my name is" (lower input) = false ->
  get u st = Some c -> b_user_name c = Some name -> name <> EmptyString ->
  any_in ["how"; "what"; "when"; "where"] (preprocess_text input) = true ->
  exists r, response (fst (get_response ci tbl st input u app now)) =
    String.append r (String.append " By the way, " (String.append name "!")).
Proof.
  intros Htbl Hnb Hc Hg Hname Hne Hany.
  destruct (best_match_some ci _ (preprocess_text input) None 0 (table_groups_ok tbl app Htbl))
    as [r0 [c0 Hbm]].
  destruct (fallbacks_some ci app) as [rf Hrf].
  unfold get_response. rewrite Hbm, Hc, Hg, Hrf, Hany. cbv iota beta. rewrite Hname.
  destruct name as [|x name']; [congruence|]. cbv iota beta.
  destruct input as [|a s]; [exfalso; apply Hnb; reflexivity|].
  destruct (strip (String a s)) eqn:Es; [congruence|].
  crush_all; eexists; reflexivity.
Qed.

Lemma bot_history_at_most_5_witness :
  Forall (fun kc => (length (b_history (snd kc)) <= 5)%nat) bot_full /\
  Forall (fun kc => (length (b_history (snd kc)) <= 5)%nat)
    (snd (get_response (fun _ => 0%nat) (pattern_responses "14:30" "02:30 PM") bot_full
            "hello" "u" "customer_support" 6)) /\
  option_map (fun c => map bt_timestamp (b_history c))
    (get "u" (snd (get_response (fun _ => 0%nat) (pattern_responses "14:30" "02:30 PM")
                     bot_full "hello" "u" "customer_support" 6)))
  = Some [2; 3; 4; 5; 6]%Z.
Proof.
  assert (H : Forall (fun kc => (length (b_history (snd kc)) <= 5)%nat) bot_full).
  { constructor; [simpl; lia | constructor]. }
  split; [exact H|]. split.
  - exact (bot_history_at_most_5 (fun _ => 0%nat) (pattern_responses "14:30" "02:30 PM")
             bot_full "hello" "u" "customer_support" 6 H).
  - vm_compute. reflexivity.
Defined.

Lemma bot_context_used_needs_history_witness :
  exists c, get "u" (snd (get_response (fun _ => 0%nat) (pattern_responses "14:30" "02:30 PM")
                            [] "hello" "u" "customer_support" 1)) = Some c /\
            b_history c <> [].
Proof.
  apply (bot_context_used_needs_history (fun _ => 0%nat) (pattern_responses "14:30" "02:30 PM")
           (snd (get_response (fun _ => 0%nat) (pattern_responses "14:30" "02:30 PM")
                   [] "hello" "u" "customer_support" 1))
           "hello again" "u" "customer_support" 2).
  vm_compute. reflexivity.
Defined.

Lemma bot_name_learned_witness :
  (exists r, response (fst (get_response (fun _ => 0%nat) (pattern_responses "14:30" "02:30 PM")
                              [] "Hi, my name is Sam" "u" "customer_support" 5)) =
     String.append "Nice to meet you, " (String.append "Sam" (String.append "! " r))) /\
  exists c, get "u" (snd (get_response (fun _ => 0%nat) (pattern_responses "14:30" "02:30 PM")
                            [] "Hi, my name is Sam" "u" "customer_support" 5)) = Some c /\
            b_user_name c = Some "Sam".
Proof.
  apply (bot_name_learned (fun _ => 0%nat) (pattern_responses "14:30" "02:30 PM") []
           "Hi, my name is Sam" "u" "customer_support" 5 "Sam" []).
  - intros gs H. vm_compute in H. injection H as <-.
    repeat constructor; simpl; discriminate.
  - vm_compute. discriminate.
  - vm_compute. reflexivity.
  - vm_compute. reflexivity.
  - simpl. lia.
Defined.

Lemma bot_name_missing_apology_witness :
  get_response (fun _ => 0%nat) (pattern_responses "14:30" "02:30 PM") [] "my name is  " "u"
    "customer_support" 5 =
  (apology "customer_support", [("u", mkBotCtx [] "customer_support" None)]).
Proof.
  apply (bot_name_missing_apology (fun _ => 0%nat) (pattern_responses "14:30" "02:30 PM") []
           "my name is  " "u" "customer_support" 5).
  - intros gs H. vm_compute in H. injection H as <-.
    repeat constructor; simpl; discriminate.
  - vm_compute. discriminate.
  - vm_compute. reflexivity.
  - vm_compute. reflexivity.
Defined.

Lemma bot_name_personalised_witness :
  exists r, response (fst (get_response (fun _ => 0%nat) (pattern_responses "14:30" "02:30 PM")
                             [("u", mkBotCtx [] "customer_support" (Some "Sam"))]
                             "What is my order status?" "u" "customer_support" 5)) =
    String.append r (String.append " By the way, " (String.append "Sam" "!")).
Proof.
  apply (bot_name_personalised (fun _ => 0%nat) (pattern_responses "14:30" "02:30 PM")
           [("u", mkBotCtx [] "customer_support" (Some "Sam"))]
           "What is my order status?" "u" "customer_support" 5
           (mkBotCtx [] "customer_support" (Some "Sam")) "Sam").
  - intros gs H. vm_compute in H. injection H as <-.
    repeat constructor; simpl; discriminate.
  - vm_compute. discriminate.
  - vm_compute. reflexivity.
  - reflexivity.
  - reflexivity.
  - discriminate.
  - vm_compute. reflexivity.
Defined.

End BotExtra.

Module PreprocessExtra.
Import PyStr StrPred Preprocess CtxExtra.

Lemma all_chars_impl (p q : ascii -> bool) (s : string) :
  (forall c, p c = true -> q c = true) -> all_chars p s = true -> all_chars q s = true.
Proof.
  intros H. induction s as [|c s IH]; simpl; [reflexivity|].
  intros Hs. apply andb_true_iff in Hs as [H1 H2]. rewrite (H c H1), (IH H2). reflexivity.
Qed.

Lemma append_empty_r (s : string) : String.append s EmptyString = s.
Proof. induction s as [|c s IH]; simpl; [reflexivity | rewrite IH; reflexivity]. Qed.

Lemma append_assoc_str (a b c : string) :
  String.append (String.append a b) c = String.append a (String.append b c).
Proof. induction a as [|x a IH]; simpl; [reflexivity | rewrite IH; reflexivity]. Qed.

Lemma lower_char_idem (c : ascii) : lower_char (lower_char c) = lower_char c.
Proof. destruct c as [[] [] [] [] [] [] [] []]; reflexivity. Qed.

Lemma lower_fixed (s : string) :
  all_chars (fun c => Ascii.eqb (lower_char c) c) (lower s) = true.
Proof.
  induction s as [|c s IH]; simpl; [reflexivity|].
  rewrite lower_char_idem, Ascii.eqb_refl. exact IH.
Qed.

Lemma lower_id (s : string) :
  all_chars (fun c => Ascii.eqb (lower_char c) c) s = true -> lower s = s.
Proof.
  induction s as [|c s IH]; simpl; [reflexivity|].
  intros H. apply andb_true_iff in H as [H1 H2]. apply Ascii.eqb_eq in H1.
  rewrite H1, (IH H2). reflexivity.
Qed.

Lemma filter_chars_all (f p : ascii -> bool) (s : string) :
  all_chars p s = true -> all_chars (fun c => f c && p c) (filter_chars f s) = true.
Proof.
  induction s as [|c s IH]; simpl; [reflexivity|].
  intros H. apply andb_true_iff in H as [H1 H2].
  destruct (f c) eqn:E; simpl; [rewrite E, H1|]; apply IH, H2.
Qed.

Lemma filter_chars_id (f : ascii -> bool) (s : string) :
  all_chars f s = true -> filter_chars f s = s.
Proof.
  induction s as [|c s IH]; simpl; [reflexivity|].
  intros H. apply andb_true_iff in H as [H1 H2]. rewrite H1, (IH H2). reflexivity.
Qed.

Lemma runs_go_chars (keep p : ascii -> bool) (s : string) :
  forall cur w, all_chars p s = true -> all_chars (fun c => p c && keep c) cur = true ->
  In w (runs_go keep s cur) -> all_chars (fun c => p c && keep c) w = true.
Proof.
  induction s as [|ch s IH]; simpl; intros cur w Hs Hcur Hin.
  - destruct cur; [destruct Hin | destruct Hin as [<-|[]]; exact Hcur].
  - apply andb_true_iff in Hs as [Hch Hs].
    destruct (keep ch) eqn:Ek.
    + refine (IH _ w Hs _ Hin).
      rewrite all_chars_append, Hcur. simpl. rewrite Hch, Ek. reflexivity.
    + destruct cur as [|c0 cur'].
      * exact (IH EmptyString w Hs eq_refl Hin).
      * destruct Hin as [<-|Hin]; [exact Hcur | exact (IH EmptyString w Hs eq_refl Hin)].
Qed.

Lemma runs_go_nonempty (keep : ascii -> bool) (s : string) :
  forall cur w, In w (runs_go keep s cur) -> w <> EmptyString.
Proof.
  induction s as [|ch s IH]; simpl; intros cur w Hin.
  - destruct cur; [destruct Hin | destruct Hin as [<-|[]]; discriminate].
  - destruct (keep ch).
    + apply (IH _ _ Hin).
    + destruct cur as [|c0 cur'].
      * exact (IH _ _ Hin).
      * destruct Hin as [<-|Hin]; [discriminate | exact (IH _ _ Hin)].
Qed.

Lemma runs_go_word (keep : ascii -> bool) (w s cur : string) :
  all_chars keep w = true ->
  runs_go keep (String.append w s) cur = runs_go keep s (String.append cur w).
Proof.
  revert cur. induction w as [|c w IH]; simpl; intros cur H.
  - rewrite append_empty_r. reflexivity.
  - apply andb_true_iff in H as [H1 H2]. rewrite H1, (IH _ H2), append_assoc_str.
    reflexivity.
Qed.

Lemma split_concat (ws : list string) :
  Forall (fun w => w <> EmptyString /\ all_chars (fun c => negb (is_space c)) w = true) ws ->
  split (String.concat " " ws) = ws.
Proof.
  unfold split.
  induction ws as [|w ws IH]; intros H; [reflexivity|].
  inversion H as [|? ? [Hne Hw] Hws]; subst.
  destruct ws as [|w2 ws'].
  - cbn [String.concat]. rewrite <- (append_empty_r w) at 1.
    rewrite (runs_go_word _ w EmptyString EmptyString Hw). simpl.
    destruct w; [congruence | reflexivity].
  - change (String.concat " " (w :: w2 :: ws')) with
      (String.append w (String.append " " (String.concat " " (w2 :: ws')))).
    rewrite (runs_go_word _ w _ EmptyString Hw).
    remember (String.concat " " (w2 :: ws')) as X eqn:EX. simpl.
    destruct w as [|c w']; [congruence|]. rewrite (IH Hws). reflexivity.
Qed.

Lemma map_get_cases (m : list (string * string)) (k d : string) :
  map_get m k d = d \/ In (map_get m k d) (map snd m).
Proof.
  induction m as [|[k' v] m IH]; simpl; [left; reflexivity|].
  destruct (String.eqb k k'); [right; left; reflexivity|].
  destruct IH as [H|H]; [left; exact H | right; right; exact H].
Qed.

Lemma lemma_values_fixed (v : string) :
  In v (map snd lemmatization_map) ->
  map_get lemmatization_map v v = v /\ v <> EmptyString /\
  all_chars (fun c => is_word c && negb (is_space c) && Ascii.eqb (lower_char c) c) v = true.
Proof.
  intros H. simpl in H.
  repeat (destruct H as [<-|H]; [split; [reflexivity | split; [discriminate | reflexivity]]|]).
  destruct H.
Qed.

Lemma lemmatize_idem (w : string) :
  let v := map_get lemmatization_map w w in map_get lemmatization_map v v = v.
Proof.
  intros v. destruct (map_get_cases lemmatization_map w w) as [H|H]; subst v.
  - rewrite H, H. reflexivity.
  - apply lemma_values_fixed, H.
Qed.

Lemma all_chars_concat (p : ascii -> bool) (ws : list string) :
  all_chars p " " = true -> Forall (fun w => all_chars p w = true) ws ->
  all_chars p (String.concat " " ws) = true.
Proof.
  intros Hsp. induction ws as [|w ws IH]; intros H; [reflexivity|].
  inversion H as [|? ? Hw Hws]; subst.
  destruct ws as [|w2 ws']; [exact Hw|].
  change (String.concat " " (w :: w2 :: ws')) with
    (String.append w (String.append " " (String.concat " " (w2 :: ws')))).
  rewrite !all_chars_append, Hw, Hsp, (IH Hws). reflexivity.
Qed.

(** [preprocess_text] is idempotent, and its result holds only lowercase
    word characters and spaces. *)
Theorem preprocess_normal_form (text : string) :
  preprocess_text (preprocess_text text) = preprocess_text text /\
  all_chars (fun c => (is_word c && Ascii.eqb (lower_char c) c) || Ascii.eqb c " ")
    (preprocess_text text) = true.
Proof.
  set (Q := fun c => is_word c && negb (is_space c) && Ascii.eqb (lower_char c) c).
  assert (Hwords : forall w, In w (split (filter_chars (fun c => is_word c || is_space c)
                                        (lower text))) ->
            w <> EmptyString /\ all_chars Q w = true).
  { intros w Hin. split; [exact (runs_go_nonempty _ _ _ _ Hin)|].
    pose proof (filter_chars_all (fun c => is_word c || is_space c) _ _ (lower_fixed text))
      as Hf.
    pose proof (runs_go_chars _ _ _ EmptyString w Hf eq_refl Hin) as Hw.
    refine (all_chars_impl _ _ _ _ Hw). intros c Hc. unfold Q.
    destruct (is_word c), (is_space c), (Ascii.eqb (lower_char c) c); simpl in *;
      congruence. }
  assert (Hout : Forall (fun w => w <> EmptyString /\ all_chars Q w = true)
                   (map (fun w => map_get lemmatization_map w w)
                      (split (filter_chars (fun c => is_word c || is_space c) (lower text))))).
  { apply Forall_forall. intros v Hv. apply in_map_iff in Hv as [w [<- Hw]].
    destruct (map_get_cases lemmatization_map w w) as [H|H].
    - rewrite H. exact (Hwords w Hw).
    - destruct (lemma_values_fixed _ H) as [_ [? ?]]. split; assumption. }
  destruct text as [|t0 text']; [split; reflexivity|].
  set (ws := map (fun w => map_get lemmatization_map w w) (split _)) in Hout.
  assert (Hall : all_chars (fun c => Ascii.eqb (lower_char c) c && (is_word c || is_space c))
                   (String.concat " " ws) = true).
  { apply all_chars_concat; [reflexivity|].
    refine (Forall_impl _ _ Hout). intros w [_ Hw].
    refine (all_chars_impl _ _ _ _ Hw). intros c Hc. unfold Q in Hc.
    destruct (is_word c), (is_space c), (Ascii.eqb (lower_char c) c); simpl in *;
      congruence. }
  change (preprocess_text (String t0 text')) with (String.concat " " ws).
  split.
  - assert (Hl : lower (String.concat " " ws) = String.concat " " ws).
    { apply lower_id. refine (all_chars_impl _ _ _ _ Hall). intros c Hc.
      apply andb_true_iff in Hc as [Hc _]. exact Hc. }
    assert (Hf : filter_chars (fun c => is_word c || is_space c) (String.concat " " ws)
                 = String.concat " " ws).
    { apply filter_chars_id. refine (all_chars_impl _ _ _ _ Hall). intros c Hc.
      apply andb_true_iff in Hc as [_ Hc]. exact Hc. }
    assert (Hs : split (String.concat " " ws) = ws).
    { apply split_concat. refine (Forall_impl _ _ Hout). intros w [Hne Hw].
      split; [exact Hne|].
      refine (all_chars_impl _ _ _ _ Hw). intros c Hc. unfold Q in Hc.
      destruct (is_space c); simpl in *; [|reflexivity].
      rewrite andb_false_r in Hc. discriminate. }
    assert (Hm : map (fun w => map_get lemmatization_map w w) ws = ws).
    { subst ws. rewrite map_map. apply map_ext. intros w. apply lemmatize_idem. }
    unfold preprocess_text at 1.
    destruct (String.concat " " ws) as [|c0 s0] eqn:Ec; [reflexivity|].
    cbv zeta. rewrite Hl, Hf, Hs, Hm. exact Ec.
  - apply (all_chars_impl (fun c => Q c || Ascii.eqb c " ")).
    + intros c Hc. unfold Q in Hc.
      destruct (is_word c), (is_space c), (Ascii.eqb (lower_char c) c),
               (Ascii.eqb c " "); simpl in *; congruence.
    + apply all_chars_concat; [reflexivity|].
      refine (Forall_impl _ _ Hout). intros w [_ Hw].
      refine (all_chars_impl _ _ _ _ Hw). intros c Hc. rewrite Hc. reflexivity.
Qed.

End PreprocessExtra.
